(** * PetSolver (petclaw/solver.py): ghost cells and the CFL reduction

    A shallow embedding of the class [PetSolver] of [src/petclaw/solver.py].
    The model has these parts:

    - [Py]: the fragment of Python the module relies on (exceptions, list
      indexing, slices) and the monad in which the methods run: a store that
      survives an exception, the trace of calls made into external libraries,
      and a result that is a value or an exception;
    - [Numpy]: dense arrays held in Fortran order, [reshape(..., order='F')]
      of a flat buffer and basic slicing [a[s0, s1, ...]];
    - [PETSc]: what the module uses of petsc4py (the distributed array's
      global-to-local scatter, a vector's local array, the collective
      maximum);
    - [Claw] and [PetSolver]: the objects of the solver framework and the
      five methods, translated line by line;
    - [Spec] and [Examples]: the vocabulary of the statements and concrete
      objects to run the methods on.

    The statements follow: facts about slices and arrays first, then what
    the methods do to ghost cells, their failure paths, the CFL reduction,
    their library calls and the allocation of the Runge-Kutta stages. *)

From Stdlib Require Import ZArith List Lia Bool String QArith.
From stdpp Require Import gmap strings.
Import ListNotations.

Local Open Scope Z_scope.

(* ===================================================================== *)
(** * Python: exceptions, the method monad, list indexing, slices *)
(* ===================================================================== *)

Module Py.

(** The exceptions that can leave a method of the module. Only
    [NotImplementedError] is raised by a [raise] statement of the module
    itself; the others come from the interpreter or from numpy. *)
Inductive exception : Type :=
| NotImplementedError (msg : string)
| IndexError
| KeyError
| ValueError
| UnboundLocalError (name : string).

Definition is_NotImplementedError (e : exception) : bool :=
  match e with NotImplementedError _ => true | _ => false end.

(** Calls into external libraries, in the order in which a method makes
    them. *)
Inductive call : Type :=
| DA_globalToLocal
| Vec_getArray
| Vec_new
| Vec_createWithArray
| Vec_max
| ndarray_reshape
| ndarray_getitem.

(** The calls that go to the distributed-array / communication library
    (petsc4py); the other two are numpy's. *)
Definition is_petsc (c : call) : bool :=
  match c with
  | ndarray_reshape | ndarray_getitem => false
  | _ => true
  end.

(** Python floats are only stored, moved and compared by this module, never
    computed with. They are embedded as rationals: every finite float is
    one; NaN and the infinities are outside the model. *)
Definition float : Type := Q.

Section Monad.
Context {S : Type}.

(** What a method leaves behind: the object it mutates, the library calls
    it made, and its value or the exception that ended it. The store is
    kept when an exception is raised: Python does not roll back. *)
Record outcome (A : Type) : Type := Outcome {
  final : S;
  trace : list call;
  result : exception + A
}.
Global Arguments Outcome {A} _ _ _.
Global Arguments final {A} _.
Global Arguments trace {A} _.
Global Arguments result {A} _.

Definition M (A : Type) : Type := S -> outcome A.

Definition ret {A} (x : A) : M A := fun s => Outcome s [] (inr x).

Definition raise {A} (e : exception) : M A := fun s => Outcome s [] (inl e).

Definition bind {A B} (m : M A) (k : A -> M B) : M B := fun s =>
  let o := m s in
  match result o with
  | inl e => Outcome (final o) (trace o) (inl e)
  | inr x =>
      let o' := k x (final o) in
      Outcome (final o') (trace o ++ trace o') (result o')
  end.

Definition get : M S := fun s => Outcome s [] (inr s).

Definition modify (f : S -> S) : M unit := fun s => Outcome (f s) [] (inr tt).

(** An external call: it is logged, then its value or exception is the
    method's. *)
Definition extern {A} (c : call) (r : exception + A) : M A :=
  fun s => Outcome s [c] r.

Definition lift {A} (r : exception + A) : M A := fun s => Outcome s [] r.

(** [for x in xs: body x] *)
Fixpoint for_each {A} (xs : list A) (body : A -> M unit) : M unit :=
  match xs with
  | [] => ret tt
  | x :: xs' => bind (body x) (fun _ => for_each xs' body)
  end.
End Monad.
Global Arguments M : clear implicits.
Global Arguments outcome : clear implicits.

Declare Scope py_scope.
Delimit Scope py_scope with py.
Notation "x <- m ;; k" := (bind m (fun x => k))
  (at level 100, m at next level, right associativity) : py_scope.
Notation "m ;;; k" := (bind m (fun _ => k))
  (at level 100, right associativity) : py_scope.

(** [range(n)] *)
Definition range (n : Z) : list Z := map Z.of_nat (seq 0 (Z.to_nat n)).

(** [l[i]] for a list: a negative index counts from the end, an index out of
    range raises [IndexError]. *)
Definition list_getitem {A} (l : list A) (i : Z) : exception + A :=
  let len := Z.of_nat (length l) in
  let j := if i <? 0 then i + len else i in
  if (j <? 0) || (len <=? j) then inl IndexError
  else match nth_error l (Z.to_nat j) with
       | Some x => inr x
       | None => inl IndexError
       end.

(** A slice [start:stop]; the module writes no step. *)
Record slice : Type := Slice { start : option Z; stop : option Z }.

(** [:] *)
Definition full : slice := Slice None None.

(** Python's adjustment of one slice bound to a sequence of length [len]
    (step 1): a negative bound counts from the end, then the bound is
    clipped to [0..len]. *)
Definition adjust (i len : Z) : Z :=
  if i <? 0 then Z.max (i + len) 0 else Z.min i len.

(** [slice.indices(len)] as (first index, number of elements). *)
Definition slice_range (s : slice) (len : nat) : nat * nat :=
  let n := Z.of_nat len in
  let lo := match start s with None => 0 | Some i => adjust i n end in
  let hi := match stop s with None => n | Some i => adjust i n end in
  (Z.to_nat lo, Z.to_nat (hi - lo)).

End Py.

(* ===================================================================== *)
(** * numpy: dense arrays in Fortran order *)
(* ===================================================================== *)

Module Numpy.
Import Py.

Section Ndarray.
Context {A : Type}.

(** An array is its shape and its elements laid out in Fortran order (the
    first index varies fastest). The module only reshapes with
    [order='F'] and slices, so one layout is enough. *)
Record ndarray : Type := Ndarray { shape : list nat; data : list A }.

(** Number of elements of an array of shape [sh]. *)
Definition size_of (sh : list nat) : nat := fold_right Nat.mul 1%nat sh.

Definition wf (a : ndarray) : Prop := length (data a) = size_of (shape a).

(** Position of the element [idx] in the Fortran-order buffer; [None]
    when [idx] has the wrong length or an index is out of bounds. *)
Fixpoint offset (sh idx : list nat) : option nat :=
  match sh, idx with
  | [], [] => Some 0%nat
  | n :: sh', i :: idx' =>
      if (i <? n)%nat
      then match offset sh' idx' with
           | Some k => Some (i + n * k)%nat
           | None => None
           end
      else None
  | _, _ => None
  end.

(** [a[i0, i1, ...]] with one integer per axis. *)
Definition item (a : ndarray) (idx : list nat) : option A :=
  match offset (shape a) idx with
  | Some k => nth_error (data a) k
  | None => None
  end.

(** All the indices of an array of shape [sh], in Fortran order. *)
Fixpoint indices (sh : list nat) : list (list nat) :=
  match sh with
  | [] => [[]]
  | n :: sh' =>
      flat_map (fun tl => map (fun i => i :: tl) (seq 0 n)) (indices sh')
  end.

(** ** reshape *)

(** numpy's resolution of the requested shape against the number of
    elements: one negative entry stands for the unknown dimension, which
    is inferred; two are an error; otherwise the product must match. *)
Definition unknowns (dims : list Z) : nat :=
  length (List.filter (fun d => d <? 0) dims).

Definition known_size (dims : list Z) : Z :=
  fold_right (fun d acc => if d <? 0 then acc else d * acc) 1 dims.

Definition resolve_shape (size : nat) (dims : list Z)
  : exception + list nat :=
  let n := Z.of_nat size in
  let k := known_size dims in
  match unknowns dims with
  | O => if k =? n then inr (map Z.to_nat dims) else inl ValueError
  | S O =>
      if (k =? 0) || negb (n mod k =? 0) then inl ValueError
      else inr (map (fun d => if d <? 0 then Z.to_nat (n / k)
                              else Z.to_nat d) dims)
  | _ => inl ValueError
  end.

(** The arrays of the module hold PETSc scalars in double precision:
    eight bytes each. *)
Definition itemsize : Z := 8.

(** The largest [npy_intp] of a 64-bit platform. *)
Definition NPY_MAX_INTP : Z := 2 ^ 63 - 1.

(** The size in bytes numpy computes before it makes an array of shape
    [sh]: the item size times the dimensions, a dimension of zero counted
    as one. (numpy multiplies dimension by dimension and gives up at the
    first product beyond [NPY_MAX_INTP]; no factor being below one, that is
    the case exactly when the whole product is beyond it.) *)
Definition nbytes (sh : list nat) : Z :=
  fold_right (fun d acc => match d with
                           | O => acc
                           | S _ => Z.of_nat d * acc
                           end) itemsize sh.

(** [buf.reshape(dims, order='F')] for a one-dimensional buffer: the
    elements keep their order. The new array object is refused, with a
    [ValueError], when its shape is too big for numpy. *)
Definition reshape (buf : list A) (dims : list Z) : exception + ndarray :=
  match resolve_shape (length buf) dims with
  | inl e => inl e
  | inr sh =>
      if nbytes sh <=? NPY_MAX_INTP then inr (Ndarray sh buf)
      else inl ValueError
  end.

(** ** basic slicing *)

(** The range taken on every axis by [a[s0, s1, ...]]: axes without a
    slice are taken whole. *)
Fixpoint axes (sh : list nat) (ss : list slice) : list (nat * nat) :=
  match sh with
  | [] => []
  | n :: sh' =>
      match ss with
      | [] => (0%nat, n) :: axes sh' []
      | s :: ss' => slice_range s n :: axes sh' ss'
      end
  end.

(** Every range lies inside its axis. *)
Definition within (ax : list (nat * nat)) (sh : list nat) : Prop :=
  Forall2 (fun r n => (fst r + snd r <= n)%nat) ax sh.

(** Index in the sliced array to index in the original one. *)
Fixpoint shift (starts idx : list nat) : list nat :=
  match starts, idx with
  | s :: starts', i :: idx' => (s + i)%nat :: shift starts' idx'
  | _, _ => []
  end.

Definition gather (a : ndarray) (starts : list nat)
    (idxs : list (list nat)) : list A :=
  flat_map (fun idx => match item a (shift starts idx) with
                       | Some x => [x]
                       | None => []
                       end) idxs.

(** [a[s0, s1, ...]]: more slices than axes is an [IndexError]. *)
Definition getitem (a : ndarray) (ss : list slice) : exception + ndarray :=
  if (length (shape a) <? length ss)%nat then inl IndexError
  else
    let ax := axes (shape a) ss in
    let sh' := map snd ax in
    inr (Ndarray sh' (gather a (map fst ax) (indices sh'))).

End Ndarray.
Global Arguments ndarray : clear implicits.

End Numpy.

(* ===================================================================== *)
(** * petsc4py: what the module calls *)
(* ===================================================================== *)

Module PETSc.
Import Py.

(** A vector as the calling process holds it: the array [getArray()]
    returns. *)
Definition Vec : Type := list float.

(** A distributed array. [globalToLocal(g, l)] fills the ghosted local
    vector [l] from the global vector [g] and from the neighbouring
    processes; what the neighbours send is not the caller's to decide, so
    the scatter is a function the object carries. *)
Record DA : Type := { scatter : Vec -> Vec -> Vec }.

Definition globalToLocal (da : DA) (g l : Vec) : Vec := scatter da g l.

(** A vector created collectively: the entries owned by the ranks below the
    caller, the caller's, and those of the ranks above. *)
Record ParVec : Type := {
  entries_below : list float;
  entries_local : list float;
  entries_above : list float
}.

Definition entries (v : ParVec) : list float :=
  entries_below v ++ entries_local v ++ entries_above v.

(** The arrays the other ranks pass to the same collective call. *)
Record World : Type := {
  arrays_below : list (list float);
  arrays_above : list (list float)
}.

(** [PETSc.Vec().createWithArray(arr)] on the default communicator. *)
Definition createWithArray (w : World) (arr : list float) : ParVec :=
  {| entries_below := concat (arrays_below w);
     entries_local := arr;
     entries_above := concat (arrays_above w) |}.

Definition PETSC_MIN_REAL : float :=
  (- (17976931348623157 * 10 ^ 292) # 1)%Q.

(** Running maximum with the position at which it was first met. *)
Fixpoint scan_max (best_i : Z) (best : float) (i : Z) (l : list float)
  : Z * float :=
  match l with
  | [] => (best_i, best)
  | x :: l' =>
      if Qle_bool x best then scan_max best_i best (i + 1) l'
      else scan_max i x (i + 1) l'
  end.

(** [v.max()]: position and value of the largest entry over all ranks. *)
Definition max (v : ParVec) : Z * float :=
  match entries v with
  | [] => (-1, PETSC_MIN_REAL)
  | x :: l => scan_max 0 x 1 l
  end.

End PETSc.

(* ===================================================================== *)
(** * The solver framework's objects *)
(* ===================================================================== *)

Module Claw.
Import Py Numpy PETSc.

(** [grid.ndim] and [grid.ng] are read as two attributes. *)
Record Grid : Type := { ndim : Z; ng : list Z }.

(** The attributes of a state that [solver.py] reads or writes. The class
    itself is declared in [state.py], which is not part of the sources. *)
Record State : Type := {
  grid : Grid;
  meqn : Z;
  maux : Z;
  q : option (ndarray float);
  aux : option (ndarray float);
  aux_global : gmap string float;
  t : float;
  q_da : DA;
  gqVec : Vec;
  lqVec : Vec;
  aux_da : DA;
  gauxVec : Vec;
  lauxVec : Vec
}.

Definition set_q (v : ndarray float) (s : State) : State :=
  {| grid := grid s; meqn := meqn s; maux := maux s; q := Some v;
     aux := aux s; aux_global := aux_global s; t := t s;
     q_da := q_da s; gqVec := gqVec s; lqVec := lqVec s;
     aux_da := aux_da s; gauxVec := gauxVec s; lauxVec := lauxVec s |}.

Definition set_aux (v : option (ndarray float)) (s : State) : State :=
  {| grid := grid s; meqn := meqn s; maux := maux s; q := q s;
     aux := v; aux_global := aux_global s; t := t s;
     q_da := q_da s; gqVec := gqVec s; lqVec := lqVec s;
     aux_da := aux_da s; gauxVec := gauxVec s; lauxVec := lauxVec s |}.

Definition set_meqn (v : Z) (s : State) : State :=
  {| grid := grid s; meqn := v; maux := maux s; q := q s;
     aux := aux s; aux_global := aux_global s; t := t s;
     q_da := q_da s; gqVec := gqVec s; lqVec := lqVec s;
     aux_da := aux_da s; gauxVec := gauxVec s; lauxVec := lauxVec s |}.

Definition set_maux (v : Z) (s : State) : State :=
  {| grid := grid s; meqn := meqn s; maux := v; q := q s;
     aux := aux s; aux_global := aux_global s; t := t s;
     q_da := q_da s; gqVec := gqVec s; lqVec := lqVec s;
     aux_da := aux_da s; gauxVec := gauxVec s; lauxVec := lauxVec s |}.

Definition set_aux_global (v : gmap string float) (s : State) : State :=
  {| grid := grid s; meqn := meqn s; maux := maux s; q := q s;
     aux := aux s; aux_global := v; t := t s;
     q_da := q_da s; gqVec := gqVec s; lqVec := lqVec s;
     aux_da := aux_da s; gauxVec := gauxVec s; lauxVec := lauxVec s |}.

Definition set_t (v : float) (s : State) : State :=
  {| grid := grid s; meqn := meqn s; maux := maux s; q := q s;
     aux := aux s; aux_global := aux_global s; t := v;
     q_da := q_da s; gqVec := gqVec s; lqVec := lqVec s;
     aux_da := aux_da s; gauxVec := gauxVec s; lauxVec := lauxVec s |}.

(** The local vectors are written in place by the scatter. *)
Definition set_lqVec (v : Vec) (s : State) : State :=
  {| grid := grid s; meqn := meqn s; maux := maux s; q := q s;
     aux := aux s; aux_global := aux_global s; t := t s;
     q_da := q_da s; gqVec := gqVec s; lqVec := v;
     aux_da := aux_da s; gauxVec := gauxVec s; lauxVec := lauxVec s |}.

Definition set_lauxVec (v : Vec) (s : State) : State :=
  {| grid := grid s; meqn := meqn s; maux := maux s; q := q s;
     aux := aux s; aux_global := aux_global s; t := t s;
     q_da := q_da s; gqVec := gqVec s; lqVec := lqVec s;
     aux_da := aux_da s; gauxVec := gauxVec s; lauxVec := v |}.

(** [solutions['n']] is an object with a list [states]. *)
Record Solution : Type := { states : list State }.

(** [d[k]] for a dict. *)
Definition dict_getitem {V} (d : gmap string V) (k : string)
  : exception + V :=
  match d !! k with
  | Some v => inr v
  | None => inl KeyError
  end.

End Claw.

(* ===================================================================== *)
(** * class PetSolver *)
(* ===================================================================== *)

Module PetSolver.
Import Py Numpy PETSc Claw.
Local Open Scope py_scope.

(** The attributes of [self] that the methods read or write. *)
Record PetSolver : Type := {
  mbc : Z;
  cfl : float;
  dt_variable : bool;
  time_integrator : string;
  rk_stages : list State
}.

Definition set_cfl (v : float) (self : PetSolver) : PetSolver :=
  {| mbc := mbc self; cfl := v; dt_variable := dt_variable self;
     time_integrator := time_integrator self; rk_stages := rk_stages self |}.

Definition set_rk_stages (v : list State) (self : PetSolver) : PetSolver :=
  {| mbc := mbc self; cfl := cfl self; dt_variable := dt_variable self;
     time_integrator := time_integrator self; rk_stages := v |}.

(** ** append_ghost_cells (lines 23-32) *)
Definition append_ghost_cells (self : PetSolver) : M State (ndarray float) :=
  state <- get ;;
  l <- extern DA_globalToLocal
         (inr (globalToLocal (q_da state) (gqVec state) (lqVec state))) ;;
  modify (set_lqVec l) ;;;
  let q_dim := map (fun n => n + 2 * mbc self) (ng (grid state)) in
  let q_dim := meqn state :: q_dim in
  state <- get ;;
  arr <- extern Vec_getArray (inr (lqVec state)) ;;
  ghosted_q <- extern ndarray_reshape (reshape arr q_dim) ;;
  ret ghosted_q.

(** ** set_global_q (lines 34-53) *)
Definition set_global_q (self : PetSolver) (ghosted_q : ndarray float)
  : M State unit :=
  state <- get ;;
  let grid := grid state in
  if ndim grid =? 1 then
    v <- extern ndarray_getitem
           (getitem ghosted_q
              [full; Slice (Some (mbc self)) (Some (- mbc self))]) ;;
    modify (set_q v)
  else if ndim grid =? 2 then
    let mbc := mbc self in
    mx <- lift (list_getitem (ng grid) 0) ;;
    my <- lift (list_getitem (ng grid) 1) ;;
    v <- extern ndarray_getitem
           (getitem ghosted_q
              [full; Slice (Some mbc) (Some (mx + mbc));
                     Slice (Some mbc) (Some (my + mbc))]) ;;
    modify (set_q v)
  else
    raise (NotImplementedError
             "The case of 3D is not handled in this function yet").

(** ** append_ghost_cells_to_aux (lines 55-68) *)
Definition append_ghost_cells_to_aux (self : PetSolver)
  : M State (ndarray float) :=
  state <- get ;;
  l <- extern DA_globalToLocal
         (inr (globalToLocal (aux_da state) (gauxVec state)
                 (lauxVec state))) ;;
  modify (set_lauxVec l) ;;;
  let aux_dim := map (fun n => n + 2 * mbc self) (ng (grid state)) in
  let aux_dim := maux state :: aux_dim in
  state <- get ;;
  arr <- extern Vec_getArray (inr (lauxVec state)) ;;
  ghosted_aux <- extern ndarray_reshape (reshape arr aux_dim) ;;
  ret ghosted_aux.

(** ** communicateCFL (lines 70-81)

    The method is collective: every rank runs it and hands its own
    [[self.cfl]] to [createWithArray]. [cfl_below] and [cfl_above] are the
    [cfl] attributes of the solvers on the other ranks at that moment. *)
Definition cfl_world (cfl_below cfl_above : list float) : World :=
  {| arrays_below := map (fun c => [c]) cfl_below;
     arrays_above := map (fun c => [c]) cfl_above |}.

Definition communicateCFL (cfl_below cfl_above : list float)
  : M PetSolver unit :=
  self <- get ;;
  if dt_variable self then
    extern Vec_new (inr tt) ;;;
    cflVec <- extern Vec_createWithArray
                (inr (createWithArray (cfl_world cfl_below cfl_above)
                        [cfl self])) ;;
    m <- extern Vec_max (inr (max cflVec)) ;;
    modify (set_cfl (snd m))
  else ret tt.

(** ** allocate_rk_stages (lines 83-106)

    [State] is imported from [state.py], which is not part of the sources:
    its constructor and its method [set_stencil_width] are parameters. *)
Section RKStages.
Variable State_init : Grid -> State.
Variable set_stencil_width : Z -> State -> State.

(** The local [nregisters] after the [if]/[elif] chain of lines 92-94:
    unbound when no branch is taken. *)
Definition nregisters_of (time_integrator : string) : option Z :=
  if String.eqb time_integrator "Euler" then Some 1
  else if String.eqb time_integrator "SSP33" then Some 2
  else if String.eqb time_integrator "SSP104" then Some 3
  else None.

(** Reading a local variable. *)
Definition read_local {S A} (name : string) (v : option A) : M S A :=
  match v with
  | Some x => ret x
  | None => raise (UnboundLocalError name)
  end.

(** [self.rk_stages[-1].attr = v], as an update [f] of the last stage. *)
Definition on_last_stage (f : State -> State) : M PetSolver unit :=
  self <- get ;;
  last <- lift (list_getitem (rk_stages self) (-1)) ;;
  modify (set_rk_stages (removelast (rk_stages self) ++ [f last])).

(** One turn of the loop (lines 99-106). *)
Definition allocate_stage (state : State) (i : Z) : M PetSolver unit :=
  self <- get ;;
  modify (set_rk_stages (rk_stages self ++ [State_init (grid state)])) ;;;
  on_last_stage (set_meqn (meqn state)) ;;;
  on_last_stage (set_maux (maux state)) ;;;
  self <- get ;;
  on_last_stage (set_stencil_width (mbc self)) ;;;
  on_last_stage (set_aux_global (aux_global state)) ;;;
  on_last_stage (set_t (t state)) ;;;
  if 0 <? maux state then on_last_stage (set_aux (aux state))
  else ret tt.

Definition allocate_rk_stages (solutions : gmap string Solution)
  : M PetSolver unit :=
  self <- get ;;
  let nregisters := nregisters_of (time_integrator self) in
  sol <- lift (dict_getitem solutions "n") ;;
  state <- lift (list_getitem (states sol) 0) ;;
  modify (set_rk_stages []) ;;;
  n <- read_local "nregisters" nregisters ;;
  for_each (range (n - 1)) (allocate_stage state).
End RKStages.

End PetSolver.

(* ===================================================================== *)
(** * Vocabulary of the statements *)
(* ===================================================================== *)

Module Spec.
Import Py Numpy PETSc Claw PetSolver.

(** A grid as the framework builds it: [ndim] is the number of dimensions,
    and no dimension has a negative number of cells. *)
Definition grid_ok (g : Grid) : Prop :=
  ndim g = Z.of_nat (length (ng g)) /\ Forall (fun n => 0 <= n) (ng g).

(** Number of elements of an array with the given dimensions. *)
Definition numel (dims : list Z) : Z := fold_right Z.mul 1 dims.

(** Dimensions that numpy accepts for an array of doubles. *)
Definition within_max_size (dims : list Z) : Prop :=
  nbytes (map Z.to_nat dims) <= NPY_MAX_INTP.

(** The shape of an array with [m] components per cell and [w] ghost cells
    on each side of every dimension of the grid. *)
Definition ghosted_dims (w m : Z) (g : Grid) : list Z :=
  m :: map (fun n => n + 2 * w) (ng g).

(** Position in a Fortran-order buffer of the element [idx] of an array with
    dimensions [dims]. *)
Fixpoint linear (dims idx : list Z) : Z :=
  match dims, idx with
  | d :: dims', i :: idx' => i + d * linear dims' idx'
  | _, _ => 0
  end.



(** The shape of an array, as Python integers. *)
Definition shapeZ {A} (a : ndarray A) : list Z := map Z.of_nat (shape a).

(** [a[c, i, j, ...]] with Python integers. *)
Definition itemZ {A} (a : ndarray A) (idx : list Z) : option A :=
  item a (map Z.to_nat idx).


(** [x] is the largest element of [l]. *)
Definition is_maximum (x : float) (l : list float) : Prop :=
  In x l /\ forall y, In y l -> (y <= x)%Q.

(** How many of the logged calls went to the distributed-array library. *)
Definition petsc_calls (tr : list call) : nat :=
  length (List.filter is_petsc tr).

(** The CFL numbers held by all the ranks when the reduction starts. *)
Definition all_cfl (cfl_below : list float) (self : PetSolver.PetSolver)
    (cfl_above : list float) : list float :=
  cfl_below ++ cfl self :: cfl_above.

(** The stage that one turn of the loop of [allocate_rk_stages] appends:
    a new state on the grid of [state], with the attributes set in the
    order of lines 100-106. *)
Definition new_stage (State_init : Grid -> State)
    (set_stencil_width : Z -> State -> State) (w : Z) (state : State)
  : State :=
  let st :=
    set_t (t state)
      (set_aux_global (aux_global state)
         (set_stencil_width w
            (set_maux (maux state)
               (set_meqn (meqn state) (State_init (grid state)))))) in
  if 0 <? maux state then set_aux (aux state) st else st.

(** The method ended in an exception that a [raise] statement of the module
    itself throws. *)
Definition raised_explicitly {S A} (o : outcome S A) : bool :=
  match result o with
  | inl e => is_NotImplementedError e
  | inr _ => false
  end.

(** A computation that never ends that way. *)
Definition quiet {S A} (m : M S A) : Prop :=
  forall s, raised_explicitly (m s) = false.

End Spec.

(* ===================================================================== *)
(** * Concrete objects for the examples *)
(* ===================================================================== *)

Module Examples.
Import Py Numpy PETSc Claw PetSolver.

Definition floats (l : list Z) : list float := map inject_Z l.

(** A distributed array on a single process: the scatter leaves the local
    vector as it is. *)
Definition single_process : DA := {| scatter := fun _ l => l |}.

(** A state on a grid with [cells] cells per dimension, [m] components and
    the local vector [buf]. *)
Definition state_of (dims : Z) (cells : list Z) (m : Z) (buf : list Z)
  : State :=
  {| grid := {| ndim := dims; ng := cells |};
     meqn := m; maux := 0; q := None; aux := None;
     aux_global := ∅; t := 0%Q;
     q_da := single_process; gqVec := []; lqVec := floats buf;
     aux_da := single_process; gauxVec := []; lauxVec := [] |}.

Definition solver_of (w : Z) (c : float) (variable_dt : bool)
    (integrator : string) (stages : list State) : PetSolver.PetSolver :=
  {| mbc := w; cfl := c; dt_variable := variable_dt;
     time_integrator := integrator; rk_stages := stages |}.

(** A stand-in for the constructor of [State]: everything empty. *)
Definition blank_state (g : Grid) : State :=
  {| grid := g; meqn := 0; maux := 0; q := None; aux := None;
     aux_global := ∅; t := 0%Q;
     q_da := single_process; gqVec := []; lqVec := [];
     aux_da := single_process; gauxVec := []; lauxVec := [] |}.

(** A stand-in for [set_stencil_width] that touches no attribute the
    solver reads. *)
Definition keep_state (w : Z) (s : State) : State := s.


(** A distributed array whose scatter delivers nothing: it blanks the
    local vector. *)
Definition blanking : DA :=
  {| scatter := fun _ l => map (fun _ => 0%Q) l |}.

(** A one-dimensional state of three cells and one component that holds
    [q = [[7, 8, 9]]], also in its global vector, with room for one ghost
    cell on either side of the local vector. *)
Definition state_with_q (da : DA) : State :=
  {| grid := {| ndim := 1; ng := [3] |};
     meqn := 1; maux := 0;
     q := Some (Ndarray [1; 3]%nat (floats [7; 8; 9])); aux := None;
     aux_global := ∅; t := 0%Q;
     q_da := da; gqVec := floats [7; 8; 9];
     lqVec := floats [0; 0; 0; 0; 0];
     aux_da := single_process; gauxVec := []; lauxVec := [] |}.

(** [solutions] with the single entry ['n'], whose only state is [st]. *)
Definition solutions_with (st : State) : gmap string Solution :=
  {[ "n" := {| states := [st] |} ]}.

End Examples.

(* ===================================================================== *)
(** * Facts about slices and arrays *)
(* ===================================================================== *)

Module PyFacts.
Import Py.

Lemma adjust_bounds (i len : Z) : 0 <= len -> 0 <= adjust i len <= len.
Proof.
  intros Hlen. unfold adjust. destruct (Z.ltb_spec i 0); lia.
Qed.

(** A slice never reaches outside the sequence. *)
Lemma slice_range_fits (s : slice) (len : nat) :
  (fst (slice_range s len) + snd (slice_range s len) <= len)%nat.
Proof.
  unfold slice_range. cbn [fst snd].
  assert (Hn : 0 <= Z.of_nat len) by lia.
  destruct (start s) as [i|], (stop s) as [j|];
    try pose proof (adjust_bounds i _ Hn);
    try pose proof (adjust_bounds j _ Hn); lia.
Qed.

Lemma slice_range_full (len : nat) : slice_range full len = (0%nat, len).
Proof.
  unfold slice_range, full. cbn [start stop]. f_equal; lia.
Qed.

(** [lo:hi] with both bounds inside the sequence. *)
Lemma slice_range_inside (lo hi : Z) (len : nat) :
  0 <= lo <= hi -> hi <= Z.of_nat len ->
  slice_range (Slice (Some lo) (Some hi)) len
  = (Z.to_nat lo, Z.to_nat (hi - lo)).
Proof.
  intros Hlo Hhi. unfold slice_range, adjust. cbn [start stop].
  destruct (Z.ltb_spec lo 0), (Z.ltb_spec hi 0); try lia.
  f_equal; lia.
Qed.


(** [0:-0] is [0:0]: nothing, whatever the length. *)
Lemma slice_range_zero_margin (len : nat) :
  slice_range (Slice (Some 0) (Some (- 0))) len = (0%nat, 0%nat).
Proof.
  unfold slice_range, adjust. cbn [start stop].
  change (- 0) with 0. destruct (Z.ltb_spec 0 0); [lia|].
  f_equal; lia.
Qed.

End PyFacts.

Module NumpyFacts.
Import Py Numpy PyFacts.

Section Blocks.
Context {B C : Type}.
Variable f : B -> list C.
Variable n : nat.
Hypothesis f_length : forall x, length (f x) = n.

Lemma length_flat_map_block (l : list B) :
  length (flat_map f l) = (n * length l)%nat.
Proof.
  induction l as [|x l IH]; cbn [flat_map length]; [lia|].
  rewrite length_app, f_length, IH. lia.
Qed.

(** In a concatenation of blocks of equal length, the element [i] of the
    block [k] sits at position [i + n * k]. *)
Lemma nth_error_flat_map_block (l : list B) (i k : nat) :
  (i < n)%nat ->
  nth_error (flat_map f l) (i + n * k)
  = match nth_error l k with
    | Some x => nth_error (f x) i
    | None => None
    end.
Proof.
  intros Hi. revert k. induction l as [|x l IH]; intros k.
  - cbn [flat_map]. destruct k; now rewrite !nth_error_nil.
  - cbn [flat_map]. destruct k as [|k].
    + cbn [nth_error]. rewrite nth_error_app1 by (rewrite f_length; lia).
      f_equal. lia.
    + cbn [nth_error]. rewrite nth_error_app2 by (rewrite f_length; lia).
      rewrite f_length.
      replace (i + n * S k - n)%nat with (i + n * k)%nat by lia.
      apply IH.
Qed.
End Blocks.

Section Facts.
Context {A : Type}.
Implicit Types (a b : ndarray A) (sh idx starts : list nat).

Lemma length_indices sh : length (indices sh) = size_of sh.
Proof.
  induction sh as [|n sh IH]; [reflexivity|].
  cbn [indices size_of fold_right].
  rewrite (length_flat_map_block _ n).
  - rewrite IH. reflexivity.
  - intros tl. now rewrite length_map, length_seq.
Qed.

Lemma offset_length sh idx k :
  offset sh idx = Some k -> length idx = length sh.
Proof.
  revert idx k. induction sh as [|n sh IH]; intros [|i idx] k H;
    cbn [offset] in H; try discriminate; [reflexivity|].
  destruct (i <? n)%nat; [|discriminate].
  destruct (offset sh idx) as [k'|] eqn:E; [|discriminate].
  cbn [length]. f_equal. eapply IH, E.
Qed.

Lemma offset_lt sh idx k :
  offset sh idx = Some k -> (k < size_of sh)%nat.
Proof.
  revert idx k. induction sh as [|n sh IH]; intros [|i idx] k H;
    cbn [offset] in H; try discriminate.
  - injection H as <-. cbn. lia.
  - destruct (Nat.ltb_spec i n); [|discriminate].
    destruct (offset sh idx) as [k'|] eqn:E; [|discriminate].
    injection H as <-. apply IH in E.
    cbn [size_of fold_right]. fold (size_of sh). nia.
Qed.

(** [indices] enumerates the indices in buffer order. *)
Lemma nth_error_indices sh idx k :
  offset sh idx = Some k -> nth_error (indices sh) k = Some idx.
Proof.
  revert idx k. induction sh as [|n sh IH]; intros [|i idx] k H;
    cbn [offset] in H; try discriminate.
  - injection H as <-. reflexivity.
  - destruct (Nat.ltb_spec i n) as [Hi|]; [|discriminate].
    destruct (offset sh idx) as [k'|] eqn:E; [|discriminate].
    injection H as <-. cbn [indices].
    rewrite (nth_error_flat_map_block _ n).
    + rewrite (IH _ _ E), nth_error_map, nth_error_seq.
      destruct (Nat.ltb_spec i n); [reflexivity|lia].
    + intros tl. now rewrite length_map, length_seq.
    + exact Hi.
Qed.

Lemma indices_offset sh idx k :
  nth_error (indices sh) k = Some idx -> offset sh idx = Some k.
Proof.
  revert idx k. induction sh as [|n sh IH]; intros idx k H.
  - cbn in H. destruct k as [|k]; cbn in H.
    + injection H as <-. reflexivity.
    + now rewrite nth_error_nil in H.
  - assert (Hk : (k < length (indices (n :: sh)))%nat)
      by (apply nth_error_Some; congruence).
    rewrite length_indices in Hk. cbn [size_of fold_right] in Hk.
    fold (size_of sh) in Hk.
    assert (Hn : (0 < n)%nat) by nia.
    pose proof (Nat.div_mod_eq k n) as Hdm.
    pose proof (Nat.mod_upper_bound k n ltac:(lia)) as Hm.
    cbn [indices] in H. rewrite Hdm in H.
    rewrite (Nat.add_comm (n * _)) in H.
    rewrite (nth_error_flat_map_block _ n) in H;
      [|intros tl; now rewrite length_map, length_seq|exact Hm].
    destruct (nth_error (indices sh) (k / n)) as [tl|] eqn:E;
      [|discriminate].
    rewrite nth_error_map, nth_error_seq in H.
    destruct (Nat.ltb_spec (k mod n) n); [|lia].
    cbn in H. injection H as <-.
    cbn [offset]. destruct (Nat.ltb_spec (k mod n) n); [|lia].
    rewrite (IH _ _ E). f_equal. lia.
Qed.
End Facts.
End NumpyFacts.

Module SliceFacts.
Import Py Numpy PyFacts NumpyFacts.

Section Facts.
Context {A : Type}.
Implicit Types (a b : ndarray A) (sh idx starts : list nat).

Lemma axes_within sh (ss : list slice) : within (axes sh ss) sh.
Proof.
  revert ss. induction sh as [|n sh IH]; intros ss; cbn [axes].
  - constructor.
  - destruct ss as [|s ss]; constructor; try apply IH.
    + cbn. lia.
    + apply slice_range_fits.
Qed.

(** An index of the slice, moved by the first indices of the ranges, is
    an index of the array. *)
Lemma offset_shift (ax : list (nat * nat)) sh idx k :
  within ax sh -> offset (map snd ax) idx = Some k ->
  exists k', offset sh (shift (map fst ax) idx) = Some k'.
Proof.
  intros Hw. revert idx k.
  induction Hw as [|[s c] n ax sh Hr Hw IH]; intros [|i idx] k H;
    cbn [map snd fst offset shift] in *; try discriminate.
  - now exists 0%nat.
  - destruct (Nat.ltb_spec i c) as [Hi|]; [|discriminate].
    destruct (offset (map snd ax) idx) as [k1|] eqn:E; [|discriminate].
    destruct (IH _ _ E) as [k' Hk']. rewrite Hk'.
    destruct (Nat.ltb_spec (s + i) n); [eauto|lia].
Qed.

Lemma item_in_bounds a idx k :
  wf a -> offset (shape a) idx = Some k -> item a idx <> None.
Proof.
  intros Hwf H. unfold item. rewrite H.
  apply nth_error_Some. rewrite Hwf. eapply offset_lt, H.
Qed.

Lemma nth_error_gather a starts (idxs : list (list nat)) k :
  (forall idx, In idx idxs -> item a (shift starts idx) <> None) ->
  nth_error (gather a starts idxs) k
  = match nth_error idxs k with
    | Some idx => item a (shift starts idx)
    | None => None
    end.
Proof.
  revert k. induction idxs as [|idx idxs IH]; intros k Hall.
  - cbn. now destruct k.
  - unfold gather. cbn [flat_map]. fold (gather a starts idxs).
    assert (Hidx := Hall idx (or_introl eq_refl)).
    destruct (item a (shift starts idx)) as [x|] eqn:E; [|congruence].
    destruct k as [|k]; cbn [nth_error app].
    + now rewrite E.
    + apply IH. intros idx' Hin. apply Hall. now right.
Qed.

Lemma length_gather a starts (idxs : list (list nat)) :
  (forall idx, In idx idxs -> item a (shift starts idx) <> None) ->
  length (gather a starts idxs) = length idxs.
Proof.
  induction idxs as [|idx idxs IH]; intros Hall; [reflexivity|].
  unfold gather. cbn [flat_map]. fold (gather a starts idxs).
  assert (Hidx := Hall idx (or_introl eq_refl)).
  destruct (item a (shift starts idx)) as [x|]; [|congruence].
  cbn [app length]. f_equal. apply IH.
  intros idx' Hin. apply Hall. now right.
Qed.

Lemma gather_defined a (ax : list (nat * nat)) idx :
  wf a -> within ax (shape a) -> In idx (indices (map snd ax)) ->
  item a (shift (map fst ax) idx) <> None.
Proof.
  intros Hwf Hw Hin. apply In_nth_error in Hin as [k Hk].
  apply indices_offset in Hk.
  destruct (offset_shift _ _ _ _ Hw Hk) as [k' Hk'].
  eapply item_in_bounds; eauto.
Qed.

(** What [a[s0, s1, ...]] is: its shape is the lengths of the ranges, and
    its element [idx] is the element of [a] at [idx] moved by the first
    indices of the ranges. *)
Lemma getitem_spec a (ss : list slice) b :
  wf a -> getitem a ss = inr b ->
  shape b = map snd (axes (shape a) ss) /\
  wf b /\
  forall idx k, offset (shape b) idx = Some k ->
    item b idx = item a (shift (map fst (axes (shape a) ss)) idx).
Proof.
  intros Hwf H. unfold getitem in H.
  destruct (length (shape a) <? length ss)%nat; [discriminate|].
  injection H as <-. cbn [shape data].
  pose proof (axes_within (shape a) ss) as Hw.
  split; [reflexivity|]. split.
  - unfold wf. cbn [shape data].
    rewrite length_gather, length_indices; [reflexivity|].
    intros idx Hin. now apply gather_defined.
  - intros idx k Hk. unfold item at 1. cbn [shape data]. rewrite Hk.
    rewrite nth_error_gather by (intros; now apply gather_defined).
    now rewrite (nth_error_indices _ _ _ Hk).
Qed.

Lemma getitem_ok a (ss : list slice) :
  (length ss <= length (shape a))%nat ->
  exists b, getitem a ss = inr b.
Proof.
  intros H. unfold getitem.
  destruct (Nat.ltb_spec (length (shape a)) (length ss)); [lia|eauto].
Qed.

Lemma shift_zero starts idx :
  Forall (eq 0%nat) starts -> length idx = length starts ->
  shift starts idx = idx.
Proof.
  intros Hz. revert idx. induction Hz as [|s starts <- Hz IH];
    intros [|i idx] Hlen; cbn in Hlen; try discriminate; [reflexivity|].
  cbn [shift]. f_equal. apply IH. lia.
Qed.

(** Taking every axis whole gives the elements back, in order. *)
Lemma gather_whole a starts :
  wf a -> Forall (eq 0%nat) starts -> length starts = length (shape a) ->
  gather a starts (indices (shape a)) = data a.
Proof.
  intros Hwf Hz Hlen.
  assert (Hsh : forall idx k, offset (shape a) idx = Some k ->
                  shift starts idx = idx).
  { intros idx k Hk. apply shift_zero; [exact Hz|].
    rewrite Hlen. eapply offset_length, Hk. }
  assert (Hall : forall idx, In idx (indices (shape a)) ->
                   item a (shift starts idx) <> None).
  { intros idx Hin. apply In_nth_error in Hin as [k Hk].
    apply indices_offset in Hk. rewrite (Hsh _ _ Hk).
    eapply item_in_bounds; eauto. }
  apply nth_error_ext. intros k.
  rewrite (nth_error_gather _ _ _ _ Hall).
  destruct (nth_error (indices (shape a)) k) as [idx|] eqn:E.
  - apply indices_offset in E. rewrite (Hsh _ _ E).
    unfold item. now rewrite E.
  - symmetry. apply nth_error_None. apply nth_error_None in E.
    rewrite length_indices in E. now rewrite Hwf.
Qed.
End Facts.
End SliceFacts.

(* ===================================================================== *)
(** * Reshaping the local vector *)
(* ===================================================================== *)

Module ReshapeFacts.
Import Py Numpy PETSc Claw PetSolver Spec PyFacts NumpyFacts SliceFacts.

Lemma unknowns_nonneg (dims : list Z) :
  Forall (fun d => 0 <= d) dims -> unknowns dims = 0%nat.
Proof.
  unfold unknowns. induction 1 as [|d dims Hd _ IH]; [reflexivity|].
  cbn [List.filter]. destruct (Z.ltb_spec d 0); [lia|exact IH].
Qed.

Lemma known_size_nonneg (dims : list Z) :
  Forall (fun d => 0 <= d) dims -> known_size dims = numel dims.
Proof.
  unfold known_size, numel. induction 1 as [|d dims Hd _ IH]; [reflexivity|].
  cbn [fold_right]. destruct (Z.ltb_spec d 0); [lia|now rewrite IH].
Qed.

Lemma numel_size_of (dims : list Z) :
  Forall (fun d => 0 <= d) dims ->
  Z.of_nat (size_of (map Z.to_nat dims)) = numel dims.
Proof.
  unfold numel, size_of. induction 1 as [|d dims Hd _ IH]; [reflexivity|].
  cbn [map fold_right]. rewrite Nat2Z.inj_mul, IH. lia.
Qed.

Lemma map_of_nat_to_nat (dims : list Z) :
  Forall (fun d => 0 <= d) dims -> map Z.of_nat (map Z.to_nat dims) = dims.
Proof.
  induction 1 as [|d dims Hd _ IH]; [reflexivity|].
  cbn [map]. rewrite IH. f_equal. lia.
Qed.

(** A reshape to non-negative dimensions succeeds exactly when their
    product is the number of elements and numpy accepts the size of the
    shape; it then takes them as the shape. *)
Lemma reshape_nonneg {A} (buf : list A) (dims : list Z) :
  Forall (fun d => 0 <= d) dims ->
  reshape buf dims
  = if (numel dims =? Z.of_nat (length buf))
       && (nbytes (map Z.to_nat dims) <=? NPY_MAX_INTP)
    then inr (Ndarray (map Z.to_nat dims) buf)
    else inl ValueError.
Proof.
  intros Hd. unfold reshape, resolve_shape.
  rewrite (unknowns_nonneg _ Hd), (known_size_nonneg _ Hd).
  destruct (numel dims =? Z.of_nat (length buf)); [|reflexivity].
  now destruct (nbytes _ <=? NPY_MAX_INTP).
Qed.

Lemma reshape_error {A} (buf : list A) (dims : list Z) e :
  reshape buf dims = inl e -> e = ValueError.
Proof.
  unfold reshape. destruct (resolve_shape _ _) as [e'|sh] eqn:E.
  - unfold resolve_shape in E. intros [= <-].
    destruct (unknowns dims) as [|[|n]].
    + destruct (_ =? _); congruence.
    + destruct (_ || _); congruence.
    + congruence.
  - destruct (_ <=? _); congruence.
Qed.

(** The position of an element, computed on Python integers. *)
Lemma offset_linear (dims idx : list Z) :
  Forall2 (fun i d => 0 <= i < d) idx dims ->
  offset (map Z.to_nat dims) (map Z.to_nat idx)
  = Some (Z.to_nat (linear dims idx)) /\ 0 <= linear dims idx.
Proof.
  induction 1 as [|i d idx dims Hi _ [IH Hpos]];
    [split; [reflexivity|cbn; lia]|].
  cbn [map offset linear]. rewrite IH.
  destruct (Nat.ltb_spec (Z.to_nat i) (Z.to_nat d)); [|lia].
  split; [f_equal; nia|nia].
Qed.

(** The element [idx] of the reshaped buffer is the buffer's element at the
    Fortran-order position of [idx]. *)
Lemma reshape_item {A} (buf : list A) (dims idx : list Z) a :
  Forall (fun d => 0 <= d) dims ->
  reshape buf dims = inr a ->
  Forall2 (fun i d => 0 <= i < d) idx dims ->
  itemZ a idx = nth_error buf (Z.to_nat (linear dims idx)).
Proof.
  intros Hd Hr Hidx. rewrite (reshape_nonneg _ _ Hd) in Hr.
  destruct (_ && _); [|discriminate]. injection Hr as <-.
  unfold itemZ, item. cbn [shape data].
  now destruct (offset_linear _ _ Hidx) as [-> _].
Qed.

Lemma reshape_wf {A} (buf : list A) (dims : list Z) a :
  Forall (fun d => 0 <= d) dims -> reshape buf dims = inr a ->
  wf a /\ shapeZ a = dims /\ data a = buf.
Proof.
  intros Hd Hr. rewrite (reshape_nonneg _ _ Hd) in Hr.
  destruct (Z.eqb_spec (numel dims) (Z.of_nat (length buf))) as [E|];
    [|discriminate].
  destruct (_ <=? _); [|discriminate]. cbn [andb] in Hr.
  injection Hr as <-. unfold wf, shapeZ. cbn [shape data].
  rewrite (map_of_nat_to_nat _ Hd). repeat split.
  apply Nat2Z.inj. now rewrite (numel_size_of _ Hd).
Qed.

End ReshapeFacts.

(* ===================================================================== *)
(** * The methods, run *)
(* ===================================================================== *)

Module RunFacts.
Import Py Numpy PETSc Claw PetSolver Spec PyFacts NumpyFacts SliceFacts.
Import ReshapeFacts.

(** [append_ghost_cells] in one step: the scatter rewrites the local
    vector, whose array is then reshaped. *)
Lemma append_ghost_cells_run (self : PetSolver.PetSolver) (s : State) :
  append_ghost_cells self s
  = let l := globalToLocal (q_da s) (gqVec s) (lqVec s) in
    Outcome (set_lqVec l s)
      [DA_globalToLocal; Vec_getArray; ndarray_reshape]
      (reshape l (ghosted_dims (mbc self) (meqn s) (grid s))).
Proof.
  unfold append_ghost_cells, ghosted_dims, bind, get, extern, modify, ret.
  cbn. now destruct (reshape _ _).
Qed.

Lemma append_ghost_cells_to_aux_run (self : PetSolver.PetSolver) (s : State) :
  append_ghost_cells_to_aux self s
  = let l := globalToLocal (aux_da s) (gauxVec s) (lauxVec s) in
    Outcome (set_lauxVec l s)
      [DA_globalToLocal; Vec_getArray; ndarray_reshape]
      (reshape l (ghosted_dims (mbc self) (maux s) (grid s))).
Proof.
  unfold append_ghost_cells_to_aux, ghosted_dims, bind, get, extern, modify,
    ret.
  cbn. now destruct (reshape _ _).
Qed.

(** [set_global_q] on a one-dimensional grid. *)
Lemma set_global_q_run_1d (self : PetSolver.PetSolver) a (s : State) :
  ndim (grid s) = 1 ->
  set_global_q self a s
  = match getitem a [full; Slice (Some (mbc self)) (Some (- mbc self))] with
    | inl e => Outcome s [ndarray_getitem] (inl e)
    | inr v => Outcome (set_q v s) [ndarray_getitem] (inr tt)
    end.
Proof.
  intros H. unfold set_global_q, bind, get, extern, modify.
  cbn. rewrite H. cbn. now destruct (getitem _ _).
Qed.

(** [set_global_q] on a two-dimensional grid of [mx] by [my] cells. *)
Lemma set_global_q_run_2d (self : PetSolver.PetSolver) a (s : State) mx my :
  ndim (grid s) = 2 -> ng (grid s) = [mx; my] ->
  set_global_q self a s
  = match getitem a [full;
                     Slice (Some (mbc self)) (Some (mx + mbc self));
                     Slice (Some (mbc self)) (Some (my + mbc self))] with
    | inl e => Outcome s [ndarray_getitem] (inl e)
    | inr v => Outcome (set_q v s) [ndarray_getitem] (inr tt)
    end.
Proof.
  intros H Hng. unfold set_global_q, bind, get, extern, modify, lift.
  cbn. rewrite H, Hng.
  change (list_getitem [mx; my] 0) with (@inr exception Z mx).
  change (list_getitem [mx; my] 1) with (@inr exception Z my).
  cbn. now destruct (getitem _ _).
Qed.

(** [set_global_q] on any other grid. *)
Lemma set_global_q_run_other (self : PetSolver.PetSolver) a (s : State) :
  ndim (grid s) <> 1 -> ndim (grid s) <> 2 ->
  set_global_q self a s
  = Outcome s []
      (inl (NotImplementedError
              "The case of 3D is not handled in this function yet")).
Proof.
  intros H1 H2. unfold set_global_q, bind, get, raise. cbn.
  destruct (Z.eqb_spec (ndim (grid s)) 1); [contradiction|].
  destruct (Z.eqb_spec (ndim (grid s)) 2); [contradiction|].
  reflexivity.
Qed.

Lemma communicateCFL_run (cfl_below cfl_above : list float)
    (self : PetSolver.PetSolver) :
  communicateCFL cfl_below cfl_above self
  = if dt_variable self
    then Outcome
           (set_cfl
              (snd (max (createWithArray (cfl_world cfl_below cfl_above)
                           [cfl self]))) self)
           [Vec_new; Vec_createWithArray; Vec_max] (inr tt)
    else Outcome self [] (inr tt).
Proof.
  unfold communicateCFL, bind, get, extern, modify, ret. cbn.
  now destruct (dt_variable self).
Qed.

End RunFacts.

(* ===================================================================== *)
(** * Cutting the ghost margin *)
(* ===================================================================== *)

Module MarginFacts.
Import Py Numpy PETSc Claw PetSolver Spec PyFacts NumpyFacts SliceFacts.
Import ReshapeFacts RunFacts.

Lemma shape_of_shapeZ {A} (a : ndarray A) (dims : list Z) :
  shapeZ a = dims -> shape a = map Z.to_nat dims.
Proof.
  intros <-. unfold shapeZ. rewrite map_map.
  rewrite <- (map_id (shape a)) at 1. apply map_ext.
  intros n. now rewrite Nat2Z.id.
Qed.

Lemma grid_ok_1d (g : Grid) :
  grid_ok g -> ndim g = 1 -> exists n, ng g = [n] /\ 0 <= n.
Proof.
  intros [Hlen Hpos] H1. rewrite H1 in Hlen.
  destruct (ng g) as [|n [|n' l]]; cbn [length] in Hlen; try lia.
  exists n. split; [reflexivity|]. now inversion Hpos.
Qed.

Lemma grid_ok_2d (g : Grid) :
  grid_ok g -> ndim g = 2 ->
  exists mx my, ng g = [mx; my] /\ 0 <= mx /\ 0 <= my.
Proof.
  intros [Hlen Hpos] H2. rewrite H2 in Hlen.
  destruct (ng g) as [|mx [|my [|n' l]]]; cbn [length] in Hlen; try lia.
  exists mx, my. split; [reflexivity|].
  inversion Hpos as [|? ? Hx Hr]; subst. inversion Hr; subst. auto.
Qed.

Section Margin.
Variable self : PetSolver.PetSolver.
Variable s : State.
Variable a : ndarray float.
Variable m : Z.
Hypothesis grid_wf : grid_ok (grid s).
Hypothesis m_nonneg : 0 <= m.
Hypothesis a_wf : wf a.
Hypothesis a_shape : shapeZ a = ghosted_dims (mbc self) m (grid s).


End Margin.

End MarginFacts.

(* ===================================================================== *)
(** * Ghost cells: appending, cutting, and the round trip *)
(* ===================================================================== *)

Module GhostCells.
Import Py Numpy PETSc Claw PetSolver Spec Examples.
Import PyFacts NumpyFacts SliceFacts ReshapeFacts RunFacts MarginFacts.

Lemma ghosted_dims_nonneg (w m : Z) (g : Grid) :
  0 <= m -> Forall (fun n => 0 <= n + 2 * w) (ng g) ->
  Forall (fun d => 0 <= d) (ghosted_dims w m g).
Proof.
  intros Hm Hg. unfold ghosted_dims. constructor; [exact Hm|].
  now apply Forall_map.
Qed.

Lemma reshape_ghosted (buf : list float) (w m : Z) (g : Grid) :
  0 <= m -> Forall (fun n => 0 <= n + 2 * w) (ng g) ->
  Z.of_nat (length buf) = numel (ghosted_dims w m g) ->
  within_max_size (ghosted_dims w m g) ->
  exists a,
    reshape buf (ghosted_dims w m g) = inr a
    /\ wf a
    /\ shapeZ a = ghosted_dims w m g
    /\ data a = buf
    /\ forall idx,
         Forall2 (fun i d => 0 <= i < d) idx (ghosted_dims w m g) ->
         itemZ a idx
         = nth_error buf (Z.to_nat (linear (ghosted_dims w m g) idx)).
Proof.
  intros Hm Hg Hlen Hmax.
  pose proof (ghosted_dims_nonneg _ _ _ Hm Hg) as Hd.
  pose proof (reshape_nonneg buf _ Hd) as Hr.
  rewrite <- Hlen, Z.eqb_refl in Hr.
  apply Z.leb_le in Hmax. rewrite Hmax in Hr. cbn [andb] in Hr.
  eexists. split; [exact Hr|].
  destruct (reshape_wf _ _ _ Hd Hr) as (Hwf & Hsh & Hdata).
  repeat split; try assumption.
  intros idx Hidx. now apply (reshape_item buf _ idx _ Hd Hr).
Qed.





End GhostCells.

(* ===================================================================== *)
(** * No ghost cells: the two branches of set_global_q differ *)
(* ===================================================================== *)

Module ZeroMargin.
Import Py Numpy PETSc Claw PetSolver Spec Examples.
Import PyFacts NumpyFacts SliceFacts ReshapeFacts RunFacts MarginFacts.

(** [a[:, 0:0]] has no element. *)
Lemma getitem_empty_axis {A} (a : ndarray A) (m n : nat) (rest : list nat) :
  wf a -> shape a = m :: n :: rest ->
  exists v,
    getitem a [full; Slice (Some 0) (Some 0)] = inr v
    /\ shape v = m :: 0%nat :: rest
    /\ data v = [].
Proof.
  intros Hwf Hsh.
  assert (Hlen : Nat.le (length [full; Slice (Some 0) (Some 0)])
                   (length (shape a))) by (rewrite Hsh; cbn; lia).
  destruct (getitem_ok a _ Hlen) as [v Hv]. exists v.
  destruct (getitem_spec _ _ _ Hwf Hv) as (Hshv & Hwfv & _).
  rewrite Hsh in Hshv. cbn [axes map] in Hshv.
  rewrite slice_range_full in Hshv.
  change (Slice (Some 0) (Some 0)) with (Slice (Some 0) (Some (- 0))) in Hshv.
  rewrite slice_range_zero_margin in Hshv. cbn [snd] in Hshv.
  assert (Hrest : map snd (axes rest []) = rest).
  { clear. induction rest as [|r rest IH]; [reflexivity|].
    cbn [axes map snd]. now rewrite IH. }
  rewrite Hrest in Hshv.
  repeat split; [exact Hv|exact Hshv|].
  unfold wf in Hwfv. rewrite Hshv in Hwfv. cbn [size_of fold_right] in Hwfv.
  apply length_zero_iff_nil. rewrite Hwfv. lia.
Qed.

(** [a[:, 0:mx, 0:my]] on an array of shape [(m, mx, my)] is the array. *)
Lemma getitem_whole_3 {A} (a : ndarray A) (m mx my : Z) :
  wf a -> shapeZ a = [m; mx; my] ->
  getitem a [full; Slice (Some 0) (Some mx); Slice (Some 0) (Some my)]
  = inr a.
Proof.
  intros Hwf Hsh.
  assert (Hpos : 0 <= mx /\ 0 <= my).
  { unfold shapeZ in Hsh. destruct (shape a) as [|x [|y [|z l]]];
      cbn [map] in Hsh; try discriminate.
    injection Hsh as _ <- <- _. lia. }
  apply shape_of_shapeZ in Hsh. cbn [map] in Hsh.
  unfold getitem. rewrite Hsh. cbn [length Nat.ltb Nat.leb axes].
  rewrite slice_range_full. rewrite !slice_range_inside by lia.
  cbn [map fst snd]. rewrite !Z.sub_0_r.
  rewrite <- Hsh. rewrite gather_whole.
  - now destruct a.
  - exact Hwf.
  - repeat constructor.
  - now rewrite Hsh.
Qed.



(** C1 (the code departs from it). One dimension, no ghost cells, one
    component, three cells: the ghosted array has shape [(1, 3)] and the
    margin to remove is empty, yet [state.q] is left with shape [(1, 0)]
    instead of [meqn] followed by [ng]. *)
Theorem set_global_q_1d_no_ghost_cells_loses_interior :
  let self := solver_of 0 1%Q true "Euler" [] in
  let state := state_of 1 [3] 1 [7; 8; 9] in
  let ghosted_q := Ndarray [1; 3]%nat (floats [7; 8; 9]) in
  shapeZ ghosted_q = ghosted_dims (mbc self) (meqn state) (grid state)
  /\ option_map shapeZ (q (final (set_global_q self ghosted_q state)))
     = Some [1; 0]
  /\ option_map shapeZ (q (final (set_global_q self ghosted_q state)))
     <> Some (meqn state :: ng (grid state)).
Proof. repeat split. discriminate. Qed.

(** C6 (the code departs from it). One dimension, no ghost cells, two
    components, four cells: [append_ghost_cells] pads by [2 * 0] cells, so
    the ghosted array has four cells; [set_global_q] then removes all four
    of them, not [0] on each side. *)
Theorem set_global_q_1d_no_ghost_cells_removes_all :
  let self := solver_of 0 1%Q true "Euler" [] in
  let state := state_of 1 [4] 2 [0; 1; 2; 3; 4; 5; 6; 7] in
  option_map shapeZ
    (match result (append_ghost_cells self state) with
     | inr ghosted_q => Some ghosted_q
     | inl _ => None
     end) = Some [2; 4 + 2 * mbc self]
  /\ option_map shapeZ
       (q (final (bind (append_ghost_cells self) (set_global_q self) state)))
     = Some [2; 0]
  /\ option_map shapeZ
       (q (final (bind (append_ghost_cells self) (set_global_q self) state)))
     <> Some [2; 4 + 2 * mbc self - 2 * mbc self].
Proof. repeat split. discriminate. Qed.

End ZeroMargin.

(* ===================================================================== *)
(** * Failure paths *)
(* ===================================================================== *)

Module Failures.
Import Py Numpy PETSc Claw PetSolver Spec Examples.
Import PyFacts NumpyFacts SliceFacts ReshapeFacts RunFacts.

(** ** Which computations can end in the module's own exception *)

Section Quiet.
Context {S : Type}.

Lemma quiet_ret {A} (x : A) : quiet (S := S) (ret x).
Proof. intros s. reflexivity. Qed.

Lemma quiet_get : quiet (S := S) get.
Proof. intros s. reflexivity. Qed.

Lemma quiet_modify (f : S -> S) : quiet (modify f).
Proof. intros s. reflexivity. Qed.

Lemma quiet_bind {A B} (m : M S A) (k : A -> M S B) :
  quiet m -> (forall x, quiet (k x)) -> quiet (bind m k).
Proof.
  intros Hm Hk s. specialize (Hm s). unfold raised_explicitly, bind in *.
  destruct (result (m s)) as [e|x] eqn:E; cbn [result].
  - exact Hm.
  - apply (Hk x (final (m s))).
Qed.

Lemma quiet_lift {A} (r : exception + A) :
  (forall e, r = inl e -> is_NotImplementedError e = false) ->
  quiet (S := S) (lift r).
Proof.
  intros Hr s. unfold raised_explicitly, lift. cbn [result].
  destruct r as [e|x]; [now apply Hr|reflexivity].
Qed.

Lemma quiet_extern {A} (c : call) (r : exception + A) :
  (forall e, r = inl e -> is_NotImplementedError e = false) ->
  quiet (S := S) (extern c r).
Proof.
  intros Hr s. unfold raised_explicitly, extern. cbn [result].
  destruct r as [e|x]; [now apply Hr|reflexivity].
Qed.

Lemma quiet_for_each {A} (xs : list A) (body : A -> M S unit) :
  (forall x, quiet (body x)) -> quiet (for_each xs body).
Proof.
  intros Hb. induction xs as [|x xs IH]; cbn [for_each].
  - apply quiet_ret.
  - apply quiet_bind; [apply Hb|intros _; exact IH].
Qed.

Lemma quiet_read_local {A} (name : string) (v : option A) :
  quiet (S := S) (read_local name v).
Proof. intros s. now destruct v. Qed.
End Quiet.

Lemma list_getitem_error {A} (l : list A) (i : Z) e :
  list_getitem l i = inl e -> is_NotImplementedError e = false.
Proof.
  unfold list_getitem. destruct (_ || _); [now intros [= <-]|].
  destruct (nth_error _ _); [discriminate|now intros [= <-]].
Qed.

Lemma dict_getitem_error {V} (d : gmap string V) (k : string) e :
  dict_getitem d k = inl e -> is_NotImplementedError e = false.
Proof.
  unfold dict_getitem. destruct (d !! k); [discriminate|now intros [= <-]].
Qed.

Lemma getitem_error {A} (a : ndarray A) (ss : list slice) e :
  getitem a ss = inl e -> is_NotImplementedError e = false.
Proof.
  unfold getitem. destruct (_ <? _)%nat; [now intros [= <-]|discriminate].
Qed.

Lemma quiet_on_last_stage (f : State -> State) : quiet (on_last_stage f).
Proof.
  unfold on_last_stage. apply quiet_bind; [apply quiet_get|]. intros self.
  apply quiet_bind; [|intros; apply quiet_modify].
  apply quiet_lift, list_getitem_error.
Qed.

Create HintDb quiet.
#[local] Hint Resolve quiet_ret quiet_get quiet_modify quiet_for_each
  quiet_read_local quiet_on_last_stage : quiet.

Lemma quiet_allocate_rk_stages (State_init : Grid -> State)
    (set_stencil_width : Z -> State -> State)
    (solutions : gmap string Solution) :
  quiet (allocate_rk_stages State_init set_stencil_width solutions).
Proof.
  unfold allocate_rk_stages.
  apply quiet_bind; [auto with quiet|]. intros self.
  apply quiet_bind; [apply quiet_lift, dict_getitem_error|]. intros sol.
  apply quiet_bind; [apply quiet_lift, list_getitem_error|]. intros state.
  apply quiet_bind; [auto with quiet|]. intros _.
  apply quiet_bind; [auto with quiet|]. intros n.
  apply quiet_for_each. intros i. unfold allocate_stage.
  repeat (apply quiet_bind; [auto with quiet|intros ?]).
  destruct (0 <? maux state); auto with quiet.
Qed.

(** C10. On a grid that has neither one nor two dimensions,
    [set_global_q] raises [NotImplementedError], makes no library call and
    leaves the state exactly as it was: [state.q] is not assigned. *)
Theorem set_global_q_unsupported_leaves_state (self : PetSolver.PetSolver)
    (ghosted_q : ndarray float) (state : State) :
  ndim (grid state) <> 1 -> ndim (grid state) <> 2 ->
  final (set_global_q self ghosted_q state) = state
  /\ q (final (set_global_q self ghosted_q state)) = q state
  /\ trace (set_global_q self ghosted_q state) = []
  /\ result (set_global_q self ghosted_q state)
     = inl (NotImplementedError
              "The case of 3D is not handled in this function yet").
Proof.
  intros H1 H2. rewrite (set_global_q_run_other _ _ _ H1 H2).
  repeat split.
Qed.

Lemma set_global_q_unsupported_leaves_state_witness :
  final (set_global_q (solver_of 2 1%Q true "Euler" [])
           (Ndarray [1; 1; 1; 1]%nat (floats [5]))
           (state_of 3 [1; 1; 1] 1 [5]))
  = state_of 3 [1; 1; 1] 1 [5].
Proof.
  refine (proj1 (set_global_q_unsupported_leaves_state
                   (solver_of 2 1%Q true "Euler" [])
                   (Ndarray [1; 1; 1; 1]%nat (floats [5]))
                   (state_of 3 [1; 1; 1] 1 [5]) _ _)); cbn; lia.
Defined.

(** C2. [set_global_q] ends in the module's own exception exactly when
    [grid.ndim] is neither 1 nor 2, and no other method ever does. *)
Theorem only_explicit_failure_is_unsupported_dimension :
  (forall self ghosted_q state,
     raised_explicitly (set_global_q self ghosted_q state)
     = negb ((ndim (grid state) =? 1) || (ndim (grid state) =? 2)))
  /\ (forall self state,
        raised_explicitly (append_ghost_cells self state) = false)
  /\ (forall self state,
        raised_explicitly (append_ghost_cells_to_aux self state) = false)
  /\ (forall cfl_below cfl_above self,
        raised_explicitly (communicateCFL cfl_below cfl_above self) = false)
  /\ (forall State_init set_stencil_width solutions self,
        raised_explicitly
          (allocate_rk_stages State_init set_stencil_width solutions self)
        = false).
Proof.
  repeat split.
  - intros self a s.
    destruct (Z.eqb_spec (ndim (grid s)) 1) as [H1|H1].
    + rewrite (set_global_q_run_1d _ _ _ H1). cbn [orb negb].
      destruct (getitem _ _) as [e|v] eqn:E; [|reflexivity].
      unfold raised_explicitly. cbn [result]. eapply getitem_error, E.
    + destruct (Z.eqb_spec (ndim (grid s)) 2) as [H2|H2].
      * cbn [orb negb]. revert H1 H2. unfold set_global_q, bind, get.
        cbn [result final trace]. intros H1 H2.
        destruct (Z.eqb_spec (ndim (grid s)) 1) as [?|_]; [contradiction|].
        destruct (Z.eqb_spec (ndim (grid s)) 2) as [_|?]; [|contradiction].
        unfold lift, extern, modify, raised_explicitly.
        destruct (list_getitem (ng (grid s)) 0) as [e|mx] eqn:E0;
          cbn [result final trace]; [eapply list_getitem_error, E0|].
        destruct (list_getitem (ng (grid s)) 1) as [e|my] eqn:E1;
          cbn [result final trace]; [eapply list_getitem_error, E1|].
        destruct (getitem _ _) as [e|v] eqn:E;
          cbn [result final trace]; [eapply getitem_error, E|reflexivity].
      * now rewrite (set_global_q_run_other _ _ _ H1 H2).
  - intros self s. rewrite append_ghost_cells_run.
    unfold raised_explicitly. cbn [result].
    destruct (reshape _ _) as [e|a] eqn:E; [|reflexivity].
    now rewrite (reshape_error _ _ _ E).
  - intros self s. rewrite append_ghost_cells_to_aux_run.
    unfold raised_explicitly. cbn [result].
    destruct (reshape _ _) as [e|a] eqn:E; [|reflexivity].
    now rewrite (reshape_error _ _ _ E).
  - intros below above self. rewrite communicateCFL_run.
    now destruct (dt_variable self).
  - intros init ssw sols self. apply quiet_allocate_rk_stages.
Qed.

End Failures.

(* ===================================================================== *)
(** * The CFL reduction *)
(* ===================================================================== *)

Module Reduction.
Import Py Numpy PETSc Claw PetSolver Spec Examples RunFacts.

Lemma is_maximum_singleton (x : float) : is_maximum x [x].
Proof.
  split; [now left|]. intros y [<-|[]]. apply Qle_refl.
Qed.

(** The scan returns the largest of its start value and the entries. *)
Lemma scan_max_is_maximum (l : list float) (best_i : Z) (best : float)
    (i : Z) :
  is_maximum (snd (scan_max best_i best i l)) (best :: l).
Proof.
  revert best_i best i.
  induction l as [|x l IH]; intros best_i best i; cbn [scan_max].
  - apply is_maximum_singleton.
  - destruct (Qle_bool x best) eqn:E.
    + apply Qle_bool_iff in E.
      destruct (IH best_i best (i + 1)) as [Hin Hmax]. split.
      * destruct Hin as [<-|Hin]; [now left|now right; right].
      * intros y [<-|[<-|Hy]].
        -- apply Hmax. now left.
        -- apply Qle_trans with best; [exact E|]. apply Hmax. now left.
        -- apply Hmax. now right.
    + assert (Hlt : (best < x)%Q).
      { apply Qnot_le_lt. intros H. apply Qle_bool_iff in H. congruence. }
      destruct (IH i x (i + 1)) as [Hin Hmax]. split.
      * now right.
      * intros y [<-|[<-|Hy]].
        -- apply Qle_trans with x; [now apply Qlt_le_weak|].
           apply Hmax. now left.
        -- apply Hmax. now left.
        -- apply Hmax. now right.
  Qed.

Lemma max_is_maximum (v : ParVec) :
  entries v <> [] -> is_maximum (snd (max v)) (entries v).
Proof.
  intros Hne. unfold max. destruct (entries v) as [|x l]; [congruence|].
  apply scan_max_is_maximum.
Qed.

Lemma concat_singletons {A} (l : list A) : concat (map (fun c => [c]) l) = l.
Proof.
  induction l as [|x l IH]; [reflexivity|]. cbn [map concat app].
  now rewrite IH.
Qed.

(** The collective vector holds one CFL number per rank. *)
Lemma entries_cfl_world (cfl_below cfl_above : list float) (c : float) :
  entries (createWithArray (cfl_world cfl_below cfl_above) [c])
  = cfl_below ++ c :: cfl_above.
Proof.
  unfold entries, createWithArray, cfl_world.
  cbn [entries_below entries_local entries_above arrays_below arrays_above].
  now rewrite !concat_singletons.
Qed.

(** C4, as the code has it. [communicateCFL] always returns normally.
    When [self.dt_variable] is set, [self.cfl] becomes the largest of the
    CFL numbers of all the ranks and nothing else changes; when it is not
    set, the method does nothing, so [self.cfl] keeps the local value. *)
Theorem communicateCFL_reduces_when_dt_variable
    (cfl_below cfl_above : list float) (self : PetSolver.PetSolver) :
  let o := communicateCFL cfl_below cfl_above self in
  result o = inr tt
  /\ if dt_variable self
     then is_maximum (cfl (final o)) (all_cfl cfl_below self cfl_above)
          /\ final o = set_cfl (cfl (final o)) self
     else final o = self.
Proof.
  cbn zeta. rewrite communicateCFL_run.
  destruct (dt_variable self); cbn [result final]; split; try reflexivity.
  split; [|reflexivity].
  cbn [set_cfl cfl]. unfold all_cfl. rewrite <- entries_cfl_world.
  apply max_is_maximum. rewrite entries_cfl_world.
  now destruct cfl_below.
Qed.

(** C4 as stated fails: with a fixed time step the solver keeps its own
    CFL number 1 although another rank holds 2. *)
Lemma communicateCFL_fixed_dt_keeps_local_cfl :
  let self := solver_of 2 1%Q false "Euler" [] in
  ~ is_maximum (cfl (final (communicateCFL [] [2%Q] self)))
      (all_cfl [] self [2%Q]).
Proof.
  cbn zeta. intros [_ Hmax].
  specialize (Hmax 2%Q (or_intror (or_introl eq_refl))).
  cbn in Hmax. unfold Qle in Hmax. cbn in Hmax. lia.
Qed.

End Reduction.

(* ===================================================================== *)
(** * Calls into the libraries *)
(* ===================================================================== *)

Module LibraryCalls.
Import Py Numpy PETSc Claw PetSolver Spec Examples RunFacts.

Lemma set_global_q_trace (self : PetSolver.PetSolver) (a : ndarray float)
    (s : State) :
  trace (set_global_q self a s) = []
  \/ trace (set_global_q self a s) = [ndarray_getitem].
Proof.
  unfold set_global_q, bind, get. cbn [result final trace].
  destruct (ndim (grid s) =? 1).
  - right. unfold extern, modify. cbn [result final trace].
    now destruct (getitem _ _).
  - destruct (ndim (grid s) =? 2); [|now left].
    unfold lift, extern, modify.
    destruct (list_getitem (ng (grid s)) 0); cbn [result final trace];
      [now left|].
    destruct (list_getitem (ng (grid s)) 1); cbn [result final trace];
      [now left|].
    right. now destruct (getitem _ _).
Qed.

(** C7, as the code has it. [append_ghost_cells] and
    [append_ghost_cells_to_aux] call the distributed-array library twice
    ([globalToLocal], then [getArray]) and numpy once ([reshape]);
    [set_global_q] makes no call to the distributed-array library, only at
    most one numpy slicing; [communicateCFL] makes three calls ([Vec()],
    [createWithArray], [max]) when [dt_variable] is set and none
    otherwise. *)
Theorem library_calls_per_method :
  (forall self state,
     trace (append_ghost_cells self state)
     = [DA_globalToLocal; Vec_getArray; ndarray_reshape]
     /\ petsc_calls (trace (append_ghost_cells self state)) = 2%nat)
  /\ (forall self state,
        trace (append_ghost_cells_to_aux self state)
        = [DA_globalToLocal; Vec_getArray; ndarray_reshape]
        /\ petsc_calls (trace (append_ghost_cells_to_aux self state))
           = 2%nat)
  /\ (forall self ghosted_q state,
        petsc_calls (trace (set_global_q self ghosted_q state)) = 0%nat
        /\ (length (trace (set_global_q self ghosted_q state)) <= 1)%nat)
  /\ (forall cfl_below cfl_above self,
        trace (communicateCFL cfl_below cfl_above self)
        = if dt_variable self
          then [Vec_new; Vec_createWithArray; Vec_max]
          else []).
Proof.
  repeat split.
  - now rewrite append_ghost_cells_run.
  - now rewrite append_ghost_cells_run.
  - now rewrite append_ghost_cells_to_aux_run.
  - now rewrite append_ghost_cells_to_aux_run.
  - destruct (set_global_q_trace self ghosted_q state) as [-> | ->];
      reflexivity.
  - destruct (set_global_q_trace self ghosted_q state) as [-> | ->];
      cbn; lia.
  - intros below above self. rewrite communicateCFL_run.
    now destruct (dt_variable self).
Qed.

(** C7 as stated fails for each of the three operations: none of them
    makes exactly one call to the distributed-array library. *)
Lemma not_one_library_call_each :
  let self := solver_of 1 1%Q false "Euler" [] in
  let state := state_of 1 [3] 2 [0; 1; 2; 3; 4; 5; 6; 7; 8; 9] in
  let ghosted_q := Ndarray [2; 5]%nat (floats [0; 1; 2; 3; 4; 5; 6; 7; 8; 9]) in
  petsc_calls (trace (append_ghost_cells self state)) <> 1%nat
  /\ petsc_calls (trace (set_global_q self ghosted_q state)) <> 1%nat
  /\ petsc_calls (trace (communicateCFL [] [] self)) <> 1%nat.
Proof. cbn zeta. repeat split; vm_compute; discriminate. Qed.

End LibraryCalls.

(* ===================================================================== *)
(** * Allocating the Runge-Kutta stages *)
(* ===================================================================== *)

Module Stages.
Import Py Numpy PETSc Claw PetSolver Spec Examples.

Lemma list_getitem_last {A} (l : list A) (x : A) :
  list_getitem (l ++ [x]) (-1) = inr x.
Proof.
  unfold list_getitem. rewrite length_app. cbn [length].
  change (-1 <? 0) with true. cbv iota.
  destruct (Z.ltb_spec (-1 + Z.of_nat (length l + 1)) 0); [lia|].
  destruct (Z.leb_spec (Z.of_nat (length l + 1))
              (-1 + Z.of_nat (length l + 1))); [lia|].
  cbn [orb].
  replace (Z.to_nat (-1 + Z.of_nat (length l + 1))) with (length l) by lia.
  now rewrite nth_error_app2, Nat.sub_diag by lia.
Qed.

(** [self.rk_stages[-1].attr = v] when there is a last stage. *)
Lemma on_last_stage_run (f : State -> State) (self : PetSolver.PetSolver)
    (l : list State) (x : State) :
  rk_stages self = l ++ [x] ->
  on_last_stage f self
  = Outcome (set_rk_stages (l ++ [f x]) self) [] (inr tt).
Proof.
  intros H. unfold on_last_stage, bind, get, lift, modify.
  cbn [result final trace]. rewrite H, list_getitem_last.
  cbn [result final trace app]. now rewrite removelast_last.
Qed.

(** A first computation that returns without a call is run and forgotten. *)
Lemma bind_pure {S A B} (m : M S A) (k : A -> M S B) (s s' : S) (x : A) :
  m s = Outcome s' [] (inr x) -> bind m k s = k x s'.
Proof.
  intros H. unfold bind. rewrite H. cbn [result final trace app].
  now destruct (k x s').
Qed.

Section Loop.
Variable State_init : Grid -> State.
Variable set_stencil_width : Z -> State -> State.
Variable state : State.

(** One turn of the loop appends one stage and touches nothing else. *)
Lemma allocate_stage_run (i : Z) (self : PetSolver.PetSolver) :
  allocate_stage State_init set_stencil_width state i self
  = Outcome
      (set_rk_stages
         (rk_stages self
          ++ [new_stage State_init set_stencil_width (mbc self) state])
         self)
      [] (inr tt).
Proof.
  unfold allocate_stage, new_stage.
  repeat (erewrite bind_pure
            by first [reflexivity
                     |apply on_last_stage_run; reflexivity];
          cbv beta; cbn [mbc set_rk_stages rk_stages]).
  destruct (0 <? maux state).
  - erewrite on_last_stage_run by reflexivity. reflexivity.
  - reflexivity.
Qed.

Lemma set_rk_stages_same (self : PetSolver.PetSolver) :
  set_rk_stages (rk_stages self) self = self.
Proof. now destruct self. Qed.

(** The loop appends as many equal stages as it has turns. *)
Lemma for_each_allocate_stage (xs : list Z) (self : PetSolver.PetSolver) :
  for_each xs (allocate_stage State_init set_stencil_width state) self
  = Outcome
      (set_rk_stages
         (rk_stages self
          ++ repeat (new_stage State_init set_stencil_width (mbc self)
                       state) (length xs))
         self)
      [] (inr tt).
Proof.
  revert self. induction xs as [|x xs IH]; intros self.
  - cbn [for_each length repeat]. unfold ret.
    now rewrite app_nil_r, set_rk_stages_same.
  - cbn [for_each length repeat]. unfold bind.
    rewrite allocate_stage_run. cbn [result final trace app].
    rewrite IH. cbn [result final trace app mbc rk_stages set_rk_stages].
    now rewrite <- app_assoc.
Qed.

Lemma length_range (n : Z) : length (range n) = Z.to_nat n.
Proof. unfold range. now rewrite length_map, length_seq. Qed.

(** [allocate_rk_stages] once [solutions['n'].states[0]] is found. *)
Lemma allocate_rk_stages_run (solutions : gmap string Solution)
    (sol : Solution) (rest : list State) (self : PetSolver.PetSolver) :
  solutions !! "n" = Some sol -> states sol = state :: rest ->
  allocate_rk_stages State_init set_stencil_width solutions self
  = match nregisters_of (time_integrator self) with
    | None =>
        Outcome (set_rk_stages [] self) []
          (inl (UnboundLocalError "nregisters"))
    | Some n =>
        Outcome
          (set_rk_stages
             (repeat (new_stage State_init set_stencil_width (mbc self)
                        state) (Z.to_nat (n - 1)))
             self)
          [] (inr tt)
    end.
Proof.
  intros Hsol Hst. unfold allocate_rk_stages, bind, get, lift, modify.
  cbn [result final trace app]. unfold dict_getitem. rewrite Hsol.
  cbn [result final trace app]. rewrite Hst.
  change (list_getitem (state :: rest) 0) with (@inr exception _ state).
  cbn [result final trace app].
  destruct (nregisters_of (time_integrator self)) as [n|];
    cbn [read_local]; unfold ret, raise; cbn [result final trace app];
    [|reflexivity].
  rewrite for_each_allocate_stage, length_range.
  reflexivity.
Qed.

End Loop.





End Stages.

(* ===================================================================== *)
(** * More on ghost cells: failures, bounds, independence *)
(* ===================================================================== *)

Module GhostCellsMore.
Import Py Numpy PETSc Claw PetSolver Spec Examples.
Import PyFacts NumpyFacts SliceFacts ReshapeFacts RunFacts MarginFacts.
Import GhostCells ZeroMargin.



(** Six dimensions of 1024 and an empty one: the shape has no element,
    like the empty local vector, but eight bytes times the non-zero
    dimensions is [2^63], beyond what numpy accepts. *)
Lemma append_ghost_cells_too_big_raises :
  result (append_ghost_cells (solver_of 0 1%Q true "Euler" [])
            (state_of 6 [1024; 1024; 1024; 1024; 1024; 0] 1024 []))
  = inl ValueError.
Proof. vm_compute. reflexivity. Qed.



(** X3. Ghosting [q] and ghosting [aux] do not interfere: each returns the
    same array whether or not the other ran first, and the two orders leave
    the same state. *)
Theorem ghost_appends_are_independent (self : PetSolver.PetSolver)
    (s : State) :
  result (append_ghost_cells self
            (final (append_ghost_cells_to_aux self s)))
  = result (append_ghost_cells self s)
  /\ result (append_ghost_cells_to_aux self
               (final (append_ghost_cells self s)))
     = result (append_ghost_cells_to_aux self s)
  /\ final (append_ghost_cells self
              (final (append_ghost_cells_to_aux self s)))
     = final (append_ghost_cells_to_aux self
                (final (append_ghost_cells self s))).
Proof.
  repeat (rewrite ?append_ghost_cells_run, ?append_ghost_cells_to_aux_run;
          cbn zeta; cbn [final result]).
  repeat split.
Qed.

(** ** Rank and bounds in [set_global_q] *)

Lemma getitem_rank {A} (a : ndarray A) (ss : list slice) :
  getitem a ss
  = if (length (shape a) <? length ss)%nat then inl IndexError
    else inr (Ndarray (map snd (axes (shape a) ss))
                (gather a (map fst (axes (shape a) ss))
                   (indices (map snd (axes (shape a) ss))))).
Proof. reflexivity. Qed.

Lemma length_axes (sh : list nat) (ss : list slice) :
  length (axes sh ss) = length sh.
Proof.
  revert ss. induction sh as [|n sh IH]; intros ss; [reflexivity|].
  cbn [axes]. destruct ss; cbn [length]; now rewrite IH.
Qed.

Lemma within_le (ax : list (nat * nat)) (sh : list nat) :
  within ax sh -> Forall2 (fun n' n => (n' <= n)%nat) (map snd ax) sh.
Proof.
  induction 1 as [|r n ax sh Hr _ IH]; cbn [map]; constructor;
    [lia|exact IH].
Qed.

(** A slicing that succeeds gives an array of the same rank that is no
    longer than the original along any axis. *)
Lemma getitem_inside {A} (a v : ndarray A) (ss : list slice) :
  wf a -> getitem a ss = inr v ->
  wf v /\ Forall2 (fun n' n => (n' <= n)%nat) (shape v) (shape a).
Proof.
  intros Hwf Hv. destruct (getitem_spec _ _ _ Hwf Hv) as (Hsh & Hwfv & _).
  split; [exact Hwfv|]. rewrite Hsh. apply within_le, axes_within.
Qed.

(** A successful [set_global_q] assigned a slice of [ghosted_q]. *)
Lemma set_global_q_success (self : PetSolver.PetSolver) (a : ndarray float)
    (s : State) :
  result (set_global_q self a s) = inr tt ->
  exists ss v, getitem a ss = inr v /\ final (set_global_q self a s)
                                       = set_q v s.
Proof.
  unfold set_global_q, bind, get. cbn [result final trace].
  destruct (ndim (grid s) =? 1).
  - unfold extern, modify. cbn [result final trace].
    destruct (getitem a _) as [e|v] eqn:E; cbn [result final];
      [discriminate|]. intros _. eauto.
  - destruct (ndim (grid s) =? 2); [|discriminate].
    unfold lift, extern, modify.
    destruct (list_getitem (ng (grid s)) 0); cbn [result final trace];
      [discriminate|].
    destruct (list_getitem (ng (grid s)) 1); cbn [result final trace];
      [discriminate|].
    destruct (getitem a _) as [e|v] eqn:E; cbn [result final];
      [discriminate|]. intros _. eauto.
Qed.

(** X4. Whatever [mbc] and [grid.ng] are, a [set_global_q] that returns has
    read nothing outside [ghosted_q]: [state.q] is a well-formed array of
    the same rank, no longer than [ghosted_q] along any axis. *)
Theorem set_global_q_stays_inside (self : PetSolver.PetSolver)
    (ghosted_q : ndarray float) (state : State) :
  wf ghosted_q ->
  result (set_global_q self ghosted_q state) = inr tt ->
  exists v,
    q (final (set_global_q self ghosted_q state)) = Some v
    /\ wf v
    /\ Forall2 (fun n' n => (n' <= n)%nat) (shape v) (shape ghosted_q).
Proof.
  intros Hwf Hok.
  destruct (set_global_q_success _ _ _ Hok) as (ss & v & Hv & Hfin).
  exists v. rewrite Hfin. split; [reflexivity|].
  exact (getitem_inside _ _ _ Hwf Hv).
Qed.

Lemma set_global_q_stays_inside_witness :
  exists v,
    q (final (set_global_q (solver_of 5 1%Q true "Euler" [])
                (Ndarray [1; 3]%nat (floats [7; 8; 9]))
                (state_of 1 [3] 1 [7; 8; 9]))) = Some v
    /\ Forall2 (fun n' n => (n' <= n)%nat) (shape v) [1; 3]%nat.
Proof.
  destruct (set_global_q_stays_inside (solver_of 5 1%Q true "Euler" [])
              (Ndarray [1; 3]%nat (floats [7; 8; 9]))
              (state_of 1 [3] 1 [7; 8; 9]) eq_refl eq_refl)
    as (v & Hq & _ & Hle).
  exists v. split; [exact Hq|exact Hle].
Defined.

Lemma list_getitem_first {A} (x : A) (l : list A) :
  list_getitem (x :: l) 0 = inr x.
Proof.
  unfold list_getitem. cbn [length]. change (0 <? 0) with false. cbv iota.
  destruct (Z.leb_spec (Z.of_nat (S (length l))) 0); [lia|reflexivity].
Qed.

Lemma list_getitem_second {A} (x y : A) (l : list A) :
  list_getitem (x :: y :: l) 1 = inr y.
Proof.
  unfold list_getitem. cbn [length]. change (1 <? 0) with false.
  change (1 <? 0) with false. cbv iota.
  destruct (Z.leb_spec (Z.of_nat (S (S (length l)))) 1); [lia|reflexivity].
Qed.

(** X5. On a grid of one or two dimensions (with both [ng[0]] and [ng[1]]
    present in the second case) [set_global_q] succeeds exactly when
    [ghosted_q] has more axes than the grid has dimensions; otherwise the
    slicing raises [IndexError] and the state is untouched. *)
Theorem set_global_q_needs_rank (self : PetSolver.PetSolver)
    (ghosted_q : ndarray float) (state : State) :
  ndim (grid state) = 1
  \/ ndim (grid state) = 2 /\ (2 <= length (ng (grid state)))%nat ->
  if (length (shape ghosted_q) <=? Z.to_nat (ndim (grid state)))%nat
  then set_global_q self ghosted_q state
       = Outcome state [ndarray_getitem] (inl IndexError)
  else result (set_global_q self ghosted_q state) = inr tt.
Proof.
  intros [H1|[H2 Hng]].
  - rewrite (set_global_q_run_1d _ _ _ H1), H1, getitem_rank.
    cbn [length]. change (Z.to_nat 1) with 1%nat.
    destruct (Nat.leb_spec (length (shape ghosted_q)) 1),
             (Nat.ltb_spec (length (shape ghosted_q)) 2);
      try lia; reflexivity.
  - destruct (ng (grid state)) as [|mx [|my rest]] eqn:E;
      cbn [length] in Hng; try lia.
    assert (Hrun : set_global_q self ghosted_q state
              = match getitem ghosted_q
                        [full;
                         Slice (Some (mbc self)) (Some (mx + mbc self));
                         Slice (Some (mbc self)) (Some (my + mbc self))]
                with
                | inl e => Outcome state [ndarray_getitem] (inl e)
                | inr v => Outcome (set_q v state) [ndarray_getitem]
                             (inr tt)
                end).
    { unfold set_global_q, bind, get, extern, modify, lift.
      cbn [result final trace]. rewrite H2, E.
      change (2 =? 1) with false. change (2 =? 2) with true. cbv iota.
      rewrite list_getitem_first, list_getitem_second.
      cbn [result final trace app]. now destruct (getitem _ _). }
    rewrite Hrun, H2, getitem_rank. cbn [length].
    change (Z.to_nat 2) with 2%nat.
    destruct (Nat.leb_spec (length (shape ghosted_q)) 2),
             (Nat.ltb_spec (length (shape ghosted_q)) 3);
      try lia; reflexivity.
Qed.

Lemma set_global_q_needs_rank_witness :
  set_global_q (solver_of 1 1%Q true "Euler" [])
    (Ndarray [3]%nat (floats [7; 8; 9])) (state_of 1 [1] 1 [7; 8; 9])
  = Outcome (state_of 1 [1] 1 [7; 8; 9]) [ndarray_getitem]
      (inl IndexError).
Proof.
  exact (set_global_q_needs_rank (solver_of 1 1%Q true "Euler" [])
           (Ndarray [3]%nat (floats [7; 8; 9]))
           (state_of 1 [1] 1 [7; 8; 9]) (or_introl eq_refl)).
Defined.

(** X6. On a two-dimensional grid whose [ng] has fewer than two entries the
    lookup [grid.ng[0]] or [grid.ng[1]] raises [IndexError] before
    [ghosted_q] is sliced: no library call, state untouched. *)
Theorem set_global_q_2d_short_ng (self : PetSolver.PetSolver)
    (ghosted_q : ndarray float) (state : State) :
  ndim (grid state) = 2 -> (length (ng (grid state)) < 2)%nat ->
  set_global_q self ghosted_q state = Outcome state [] (inl IndexError).
Proof.
  intros H2 Hng. unfold set_global_q, bind, get, lift.
  cbn [result final trace]. rewrite H2.
  change (2 =? 1) with false. change (2 =? 2) with true. cbv iota.
  destruct (ng (grid state)) as [|mx [|my rest]]; cbn [length] in Hng;
    try lia; reflexivity.
Qed.

Lemma set_global_q_2d_short_ng_witness :
  set_global_q (solver_of 1 1%Q true "Euler" [])
    (Ndarray [1; 3; 1]%nat (floats [7; 8; 9])) (state_of 2 [1] 1 [])
  = Outcome (state_of 2 [1] 1 []) [] (inl IndexError).
Proof.
  apply (set_global_q_2d_short_ng (solver_of 1 1%Q true "Euler" [])
           (Ndarray [1; 3; 1]%nat (floats [7; 8; 9]))
           (state_of 2 [1] 1 []) eq_refl).
  cbn. lia.
Defined.

End GhostCellsMore.

(* ===================================================================== *)
(** * The round trip: ghost cells appended, then cut *)
(* ===================================================================== *)

Module RoundTrip.
Import Py Numpy PETSc Claw PetSolver Spec Examples.
Import PyFacts NumpyFacts SliceFacts ReshapeFacts RunFacts MarginFacts.
Import GhostCells GhostCellsMore.








(** The round trip takes [state.q] from the local vector, whatever the
    scatter put there: with a scatter that delivers nothing, the values
    [7, 8, 9] held before are replaced by the blanks. *)
Lemma round_trip_follows_the_scatter :
  let self := solver_of 1 1%Q true "Euler" [] in
  let o := bind (append_ghost_cells self) (set_global_q self)
             (state_with_q blanking) in
  result o = inr tt
  /\ q (final o) = Some (Ndarray [1; 3]%nat (floats [0; 0; 0]))
  /\ q (final o) <> q (state_with_q blanking).
Proof. repeat split. discriminate. Qed.

End RoundTrip.

(* ===================================================================== *)
(** * More on the margin: where it is cut exactly *)
(* ===================================================================== *)

Module MarginMore.
Import Py Numpy PETSc Claw PetSolver Spec Examples.
Import PyFacts NumpyFacts SliceFacts ReshapeFacts RunFacts MarginFacts.
Import GhostCells ZeroMargin.



Lemma ghosted_dims_zero (m : Z) (g : Grid) :
  ghosted_dims 0 m g = m :: ng g.
Proof.
  unfold ghosted_dims. f_equal. rewrite <- (map_id (ng g)) at 2.
  apply map_ext. intros n. lia.
Qed.

(** X8. Without ghost cells ([mbc == 0]), on a consistent grid of one or
    two dimensions, with [meqn >= 0], a local vector of exactly
    [meqn * prod(ng)] entries and a shape [meqn] followed by [ng] that
    numpy accepts, the round trip
    [set_global_q(state, append_ghost_cells(state))] returns normally; on
    a two-dimensional grid it leaves in [state.q] the whole local vector
    under the shape [(meqn, mx, my)], whereas on a one-dimensional grid it
    leaves an array without elements. *)
Theorem round_trip_without_ghost_cells (self : PetSolver.PetSolver)
    (s : State) :
  let lq := globalToLocal (q_da s) (gqVec s) (lqVec s) in
  let o := bind (append_ghost_cells self) (set_global_q self) s in
  mbc self = 0 -> grid_ok (grid s) -> 0 <= meqn s ->
  Z.of_nat (length lq) = numel (meqn s :: ng (grid s)) ->
  within_max_size (meqn s :: ng (grid s)) ->
  ndim (grid s) = 1 \/ ndim (grid s) = 2 ->
  result o = inr tt
  /\ exists v,
       q (final o) = Some v
       /\ if ndim (grid s) =? 1
          then shapeZ v = [meqn s; 0] /\ data v = []
          else shapeZ v = meqn s :: ng (grid s) /\ data v = lq.
Proof.
  intros lq o Hw Hgrid Hm Hlen Hmax Hdim.
  assert (Hg : Forall (fun n => 0 <= n + 2 * mbc self) (ng (grid s))).
  { pose proof Hgrid as [_ Hpos]. eapply List.Forall_impl; [|exact Hpos].
    cbn. intros n Hn. lia. }
  rewrite <- (ghosted_dims_zero (meqn s)), <- Hw in Hlen, Hmax.
  destruct (reshape_ghosted lq _ _ _ Hm Hg Hlen Hmax)
    as (a & Hr & Hwf & Hsh & Hdata & _).
  subst o. unfold bind. rewrite append_ghost_cells_run.
  cbn [result final trace]. fold lq. rewrite Hr.
  rewrite Hw, ghosted_dims_zero in Hsh.
  destruct Hdim as [H1|H2].
  - destruct (grid_ok_1d _ Hgrid H1) as (n & Hng & Hn).
    rewrite Hng in Hsh. apply shape_of_shapeZ in Hsh as Hsha.
    cbn [map] in Hsha.
    destruct (getitem_empty_axis a _ _ [] Hwf Hsha) as (v & Hv & Hshv & Hd).
    rewrite (set_global_q_run_1d self a (set_lqVec lq s) H1), Hw.
    change (- 0) with 0. rewrite Hv. cbn [result final trace].
    split; [reflexivity|]. exists v. split; [reflexivity|].
    rewrite H1. change (1 =? 1) with true. cbv iota.
    split; [|exact Hd]. unfold shapeZ. rewrite Hshv. cbn [map].
    f_equal. lia.
  - destruct (grid_ok_2d _ Hgrid H2) as (mx & my & Hng & Hmx & Hmy).
    rewrite Hng in Hsh.
    pose proof (getitem_whole_3 a _ _ _ Hwf Hsh) as Hv.
    rewrite (set_global_q_run_2d self a (set_lqVec lq s) mx my H2 Hng).
    rewrite Hw, !Z.add_0_r, Hv. cbn [result final trace].
    split; [reflexivity|]. exists a. split; [reflexivity|].
    rewrite H2. change (2 =? 1) with false. cbv iota.
    rewrite Hng. split; [exact Hsh|exact Hdata].
Qed.

Lemma round_trip_without_ghost_cells_witness :
  exists v,
    q (final (bind (append_ghost_cells (solver_of 0 1%Q true "Euler" []))
                (set_global_q (solver_of 0 1%Q true "Euler" []))
                (state_of 2 [2; 1] 1 [7; 8])))
    = Some v
    /\ data v = floats [7; 8].
Proof.
  destruct (round_trip_without_ghost_cells
              (solver_of 0 1%Q true "Euler" [])
              (state_of 2 [2; 1] 1 [7; 8]))
    as (_ & v & Hq & _ & Hd).
  - reflexivity.
  - split; [reflexivity|]. repeat constructor; lia.
  - cbn. lia.
  - reflexivity.
  - vm_compute. discriminate.
  - right. reflexivity.
  - exists v. split; [exact Hq|exact Hd].
Defined.

End MarginMore.

(* ===================================================================== *)
(** * More on the CFL reduction *)
(* ===================================================================== *)

Module ReductionMore.
Import Py Numpy PETSc Claw PetSolver Spec Examples RunFacts Reduction.

(** X10. [communicateCFL] never lowers [self.cfl]. *)
Theorem communicateCFL_never_lowers_cfl (cfl_below cfl_above : list float)
    (self : PetSolver.PetSolver) :
  (cfl self <= cfl (final (communicateCFL cfl_below cfl_above self)))%Q.
Proof.
  rewrite communicateCFL_run.
  destruct (dt_variable self); cbn [final cfl set_cfl]; [|apply Qle_refl].
  assert (Hne : entries (createWithArray
                           (cfl_world cfl_below cfl_above) [cfl self])
                <> []).
  { rewrite entries_cfl_world. now destruct cfl_below. }
  destruct (max_is_maximum _ Hne) as [_ Hmax]. apply Hmax.
  rewrite entries_cfl_world. apply in_or_app. right. now left.
Qed.

(** X11. On a single process [communicateCFL] leaves the solver as it is. *)
Theorem communicateCFL_single_process (self : PetSolver.PetSolver) :
  final (communicateCFL [] [] self) = self.
Proof.
  rewrite communicateCFL_run.
  destruct (dt_variable self); cbn [final]; [|reflexivity].
  now destruct self.
Qed.

(** X12. All ranks agree: two ranks that see the same CFL numbers in rank order
    and both reduce end up with the same [cfl]. *)
Theorem communicateCFL_ranks_agree
    (below1 above1 below2 above2 : list float)
    (self1 self2 : PetSolver.PetSolver) :
  dt_variable self1 = true -> dt_variable self2 = true ->
  all_cfl below1 self1 above1 = all_cfl below2 self2 above2 ->
  cfl (final (communicateCFL below1 above1 self1))
  = cfl (final (communicateCFL below2 above2 self2)).
Proof.
  intros H1 H2 Hall. rewrite !communicateCFL_run, H1, H2.
  cbn [final cfl set_cfl]. unfold max.
  rewrite !entries_cfl_world. unfold all_cfl in Hall. now rewrite Hall.
Qed.

Lemma communicateCFL_ranks_agree_witness :
  cfl (final (communicateCFL [] [3%Q; 2%Q]
                (solver_of 2 1%Q true "Euler" [])))
  = cfl (final (communicateCFL [1%Q; 3%Q] []
                  (solver_of 2 2%Q true "Euler" []))).
Proof.
  exact (communicateCFL_ranks_agree [] [3%Q; 2%Q] [1%Q; 3%Q] []
           (solver_of 2 1%Q true "Euler" [])
           (solver_of 2 2%Q true "Euler" []) eq_refl eq_refl eq_refl).
Defined.

End ReductionMore.

(* ===================================================================== *)
(** * More on the Runge-Kutta stages *)
(* ===================================================================== *)

Module StagesMore.
Import Py Numpy PETSc Claw PetSolver Spec Examples Stages.

Section Cases.
Variable State_init : Grid -> State.
Variable set_stencil_width : Z -> State -> State.
Variable solutions : gmap string Solution.

(** [allocate_rk_stages] on every input: the two lookups, then the read
    of [nregisters], then the loop. *)
Lemma allocate_rk_stages_cases (self : PetSolver.PetSolver) :
  allocate_rk_stages State_init set_stencil_width solutions self
  = match solutions !! "n" with
    | None => Outcome self [] (inl KeyError)
    | Some sol =>
        match states sol with
        | [] => Outcome self [] (inl IndexError)
        | state :: _ =>
            match nregisters_of (time_integrator self) with
            | None =>
                Outcome (set_rk_stages [] self) []
                  (inl (UnboundLocalError "nregisters"))
            | Some n =>
                Outcome
                  (set_rk_stages
                     (repeat (new_stage State_init set_stencil_width
                                (mbc self) state) (Z.to_nat (n - 1)))
                     self)
                  [] (inr tt)
            end
        end
    end.
Proof.
  destruct (solutions !! "n") as [sol|] eqn:Hsol.
  - destruct (states sol) as [|state rest] eqn:Hst.
    + unfold allocate_rk_stages, bind, get, lift, dict_getitem.
      cbn [result final trace]. rewrite Hsol. cbn [result final trace].
      now rewrite Hst.
    + apply (allocate_rk_stages_run _ _ _ _ _ _ _ Hsol Hst).
  - unfold allocate_rk_stages, bind, get, lift, dict_getitem.
    cbn [result final trace]. now rewrite Hsol.
Qed.

(** Whatever happens, only [rk_stages] can differ afterwards. *)
Lemma allocate_rk_stages_final (self : PetSolver.PetSolver) :
  exists stages,
    final (allocate_rk_stages State_init set_stencil_width solutions self)
    = set_rk_stages stages self.
Proof.
  rewrite allocate_rk_stages_cases.
  destruct (solutions !! "n") as [sol|];
    [destruct (states sol) as [|state rest];
     [|destruct (nregisters_of (time_integrator self))]|];
    cbn [final]; eauto using eq_sym, set_rk_stages_same.
Qed.
End Cases.

(** X13. When [solutions] has no entry ['n'], or its [states] is empty, the
    method raises [KeyError], respectively [IndexError], before it touches
    [self]: the stages held so far are kept. *)
Theorem allocate_rk_stages_lookup_failure (State_init : Grid -> State)
    (set_stencil_width : Z -> State -> State)
    (solutions : gmap string Solution) (self : PetSolver.PetSolver) :
  solutions !! "n" = None
  \/ (exists sol, solutions !! "n" = Some sol /\ states sol = []) ->
  allocate_rk_stages State_init set_stencil_width solutions self
  = Outcome self []
      (inl match solutions !! "n" with
           | Some _ => IndexError
           | None => KeyError
           end).
Proof.
  intros H. rewrite allocate_rk_stages_cases.
  destruct H as [->|(sol & -> & ->)]; reflexivity.
Qed.

Lemma allocate_rk_stages_lookup_failure_witness :
  allocate_rk_stages blank_state keep_state ∅
    (solver_of 2 1%Q true "Euler" [blank_state {| ndim := 1; ng := [3] |}])
  = Outcome
      (solver_of 2 1%Q true "Euler" [blank_state {| ndim := 1; ng := [3] |}])
      [] (inl KeyError).
Proof.
  exact (allocate_rk_stages_lookup_failure blank_state keep_state ∅
           (solver_of 2 1%Q true "Euler"
              [blank_state {| ndim := 1; ng := [3] |}])
           (or_introl eq_refl)).
Defined.

(** X14. [allocate_rk_stages] changes no attribute of the solver other than
    [rk_stages], whether it returns or raises. *)
Theorem allocate_rk_stages_keeps_solver (State_init : Grid -> State)
    (set_stencil_width : Z -> State -> State)
    (solutions : gmap string Solution) (self : PetSolver.PetSolver) :
  let o := allocate_rk_stages State_init set_stencil_width solutions self in
  mbc (final o) = mbc self
  /\ cfl (final o) = cfl self
  /\ dt_variable (final o) = dt_variable self
  /\ time_integrator (final o) = time_integrator self.
Proof.
  cbn zeta.
  destruct (allocate_rk_stages_final State_init set_stencil_width solutions
              self) as [stages ->].
  repeat split.
Qed.

(** X15. Running [allocate_rk_stages] again changes nothing: the stages of the
    first run are discarded and rebuilt, so the second run ends like the
    first. *)
Theorem allocate_rk_stages_idempotent (State_init : Grid -> State)
    (set_stencil_width : Z -> State -> State)
    (solutions : gmap string Solution) (self : PetSolver.PetSolver) :
  allocate_rk_stages State_init set_stencil_width solutions
    (final (allocate_rk_stages State_init set_stencil_width solutions self))
  = allocate_rk_stages State_init set_stencil_width solutions self.
Proof.
  rewrite !allocate_rk_stages_cases.
  destruct (solutions !! "n") as [sol|]; [|reflexivity].
  destruct (states sol) as [|state rest]; [reflexivity|].
  destruct (nregisters_of (time_integrator self)) as [n|] eqn:E;
    cbn [final time_integrator mbc set_rk_stages]; rewrite E; reflexivity.
Qed.

(** X16. [aux] is handed to the stages only under the guard [state.maux > 0]:
    then every stage holds the very [aux] of [solutions['n'].states[0]];
    otherwise the [aux] of every stage is the one the new state had after
    [set_stencil_width], whatever [state.aux] is. *)
Theorem allocate_rk_stages_aux_guard (State_init : Grid -> State)
    (set_stencil_width : Z -> State -> State)
    (solutions : gmap string Solution) (sol : Solution)
    (state : State) (rest : list State) (self : PetSolver.PetSolver) :
  solutions !! "n" = Some sol -> states sol = state :: rest ->
  Forall
    (fun st =>
       aux st
       = if 0 <? maux state then aux state
         else aux (set_stencil_width (mbc self)
                     (set_maux (maux state)
                        (set_meqn (meqn state) (State_init (grid state))))))
    (rk_stages (final (allocate_rk_stages State_init set_stencil_width
                         solutions self))).
Proof.
  intros Hsol Hst.
  rewrite allocate_rk_stages_cases, Hsol, Hst.
  destruct (nregisters_of (time_integrator self)) as [n|];
    cbn [final rk_stages set_rk_stages]; [|constructor].
  apply List.Forall_forall. intros st Hin.
  apply repeat_spec in Hin. subst st. unfold new_stage.
  now destruct (0 <? maux state).
Qed.

Lemma allocate_rk_stages_aux_guard_witness :
  Forall (fun st => aux st = None)
    (rk_stages (final (allocate_rk_stages blank_state keep_state
                         (solutions_with (state_of 1 [3] 2 []))
                         (solver_of 2 1%Q true "SSP104" [])))).
Proof.
  exact (allocate_rk_stages_aux_guard blank_state keep_state
           (solutions_with (state_of 1 [3] 2 []))
           {| states := [state_of 1 [3] 2 []] |}
           (state_of 1 [3] 2 []) []
           (solver_of 2 1%Q true "SSP104" [])
           ltac:(vm_compute; reflexivity) eq_refl).
Defined.

End StagesMore.
(* ===================================================================== *)
(** * The one-dimensional branch and the length of the array *)
(* ===================================================================== *)

Module OneDimension.
Import Py Numpy PETSc Claw PetSolver Spec Examples.
Import PyFacts SliceFacts RunFacts.




End OneDimension.
